(** * The package.json validation script: matchers, runner and manifest checks

    A shallow embedding of the dependency-free validation script
    (the hand-rolled [test]/[expect] micro-framework and the manifest
    checks it runs) together with the ECMAScript operations the script
    relies on: IEEE binary64 numbers, string to number conversion,
    [Number::toString], [JSON.stringify], strict equality, the [in]
    operator, a backtracking regular-expression matcher, and so on. *)

From Stdlib Require Import ZArith List String Ascii Bool Lia.
From Stdlib Require Import Floats.SpecFloat.
From Stdlib Require Import DecimalString.
From Stdlib Require Import Sorting.Permutation.
Import ListNotations.

Local Open Scope string_scope.
Local Open Scope Z_scope.

(** ** Strings

    A JavaScript string is represented by the bytes of its UTF-8 encoding.
    The operations below look for ASCII bytes or compare whole byte
    sequences, which commutes with that encoding for well-formed text. *)

Module JsString.

Definition bytes (l : list nat) : string :=
  string_of_list_ascii (map ascii_of_nat l).

(** [s.slice(0, n)] and [s.slice(n)] *)
Definition take (n : nat) (s : string) : string := substring 0 n s.
Definition drop (n : nat) (s : string) : string :=
  substring n (String.length s - n) s.

(** [s.startsWith(p)] *)
Definition startsWith (s p : string) : bool := String.prefix p s.

(** [s.includes(p)]: [p] occurs somewhere in [s]. *)
Fixpoint includes (s p : string) : bool :=
  startsWith s p ||
  match s with
  | EmptyString => false
  | String _ s' => includes s' p
  end.

Definition chars (s : string) : list string :=
  map (fun c => String c "") (list_ascii_of_string s).

Fixpoint split_go (sep : string) (skip : nat) (cur : string) (s : string)
  : list string :=
  match s with
  | EmptyString => [cur]
  | String c s' =>
      match skip with
      | S k => split_go sep k cur s'
      | O =>
          if startsWith s sep
          then cur :: split_go sep (String.length sep - 1) "" s'
          else split_go sep 0 (cur ++ String c "") s'
      end
  end.

(** [s.split(sep)] for a string separator and no limit. *)
Definition split (s sep : string) : list string :=
  match sep with
  | EmptyString => chars s
  | _ => split_go sep 0 "" s
  end.

(** [parts.join(sep)] on strings. *)
Definition join (sep : string) (parts : list string) : string :=
  String.concat sep parts.

Definition rev (s : string) : string :=
  string_of_list_ascii (List.rev (list_ascii_of_string s)).

(** WhiteSpace and LineTerminator code points, UTF-8 encoded:
    TAB, LF, VT, FF, CR, SP, U+00A0, U+1680, U+2000..U+200A, U+2028,
    U+2029, U+202F, U+205F, U+3000, U+FEFF. *)
Definition white_space : list string :=
  map bytes
    ([[9]; [10]; [11]; [12]; [13]; [32]; [194; 160]; [225; 154; 128]]
     ++ map (fun b => [226; 128; b])
          [128; 129; 130; 131; 132; 133; 134; 135; 136; 137; 138]
     ++ [[226; 128; 168]; [226; 128; 169]; [226; 128; 175]; [226; 129; 159];
         [227; 128; 128]; [239; 187; 191]])%nat%list.

Definition strip1 (ws : list string) (s : string) : option string :=
  match find (startsWith s) ws with
  | Some w => Some (drop (String.length w) s)
  | None => None
  end.

Fixpoint strip (fuel : nat) (ws : list string) (s : string) : string :=
  match fuel with
  | O => s
  | S f => match strip1 ws s with
           | Some s' => strip f ws s'
           | None => s
           end
  end.

(** [s.trim()] *)
Definition trim (s : string) : string :=
  let s1 := strip (String.length s) white_space s in
  rev (strip (String.length s1) (map rev white_space) (rev s1)).

(** [<] between two strings.  The engine compares UTF-16 code units; on
    the UTF-8 bytes this is code-point order, the same order except
    between a supplementary character and one in U+E000..U+FFFF. *)
Fixpoint ltb (s t : string) : bool :=
  match s, t with
  | _, EmptyString => false
  | EmptyString, String _ _ => true
  | String a s', String b t' =>
      (nat_of_ascii a <? nat_of_ascii b)%nat
      || (Ascii.eqb a b && ltb s' t')
  end.

End JsString.

(** ** Numbers: IEEE 754 binary64 *)

Module JsNumber.

(** A JavaScript Number is a binary64 float.  [spec_float] is the
    library's inductive description of such a value: signed zeros, signed
    infinities, one NaN, and finite values [(-1)^s * m * 2^e]. *)
Definition number : Type := spec_float.

Definition prec : Z := 53.
Definition emax : Z := 1024.

Definition NaN : number := S754_nan.
Definition Infinity : number := S754_infinity false.

(** A numeric literal with an integral value ([15], [5], [10], ...). *)
Definition of_Z (z : Z) : number := binary_normalize prec emax z 0 false.

(** The Number value for the positive rational [p / q]: the quotient is
    computed with its rounding location and rounded to nearest, ties to
    even. *)
Definition round_rational (neg : bool) (p q : positive) : number :=
  let '(mz, ez, lz) := SFdiv_core_binary prec emax (Zpos p) 0 (Zpos q) 0 in
  binary_round_aux prec emax neg mz ez lz.

(** [x < y], [x <= y] and [x === y] on Numbers; every comparison with NaN
    is false, and the two zeros are equal. *)
Definition ltb (x y : number) : bool := SFltb x y.
Definition leb (x y : number) : bool := SFleb x y.
Definition eqb (x y : number) : bool := SFeqb x y.

Definition is_nan (x : number) : bool :=
  match x with S754_nan => true | _ => false end.

Definition is_zero (x : number) : bool :=
  match x with S754_zero _ => true | _ => false end.

Definition is_finite (x : number) : bool :=
  match x with S754_zero _ | S754_finite _ _ _ => true | _ => false end.

(** *** Decimal digits *)

Definition digits_of_pos (p : positive) : string :=
  NilEmpty.string_of_uint (Pos.to_uint p).

Definition digits_of_Z (z : Z) : string :=
  match z with
  | Z0 => "0"
  | Zpos p => digits_of_pos p
  | Zneg p => "-" ++ digits_of_pos p
  end.

Definition digits_of_nat (n : nat) : string := digits_of_Z (Z.of_nat n).

Fixpoint repeat_zero (n : nat) : string :=
  match n with
  | O => ""
  | S n' => String "0" (repeat_zero n')
  end.

(** *** Number::toString

    For a finite non-zero [x] the language asks for integers [n], [k], [s]
    with [k >= 1], [10^(k-1) <= s < 10^k], [s * 10^(n-k)] having Number
    value [x], and [k] as small as possible.  The exact value of [x] is
    the rational [vnum / vden]. *)

Definition exact_num (m : positive) (e : Z) : Z :=
  if 0 <=? e then Zpos m * 2 ^ e else Zpos m.
Definition exact_den (e : Z) : Z :=
  if 0 <=? e then 1 else 2 ^ (- e).

(** [10^j <= vnum / vden] *)
Definition pow10_le (j vnum vden : Z) : bool :=
  if 0 <=? j then vden * 10 ^ j <=? vnum else vden <=? vnum * 10 ^ (- j).

(** The [n] with [10^(n-1) <= v < 10^n], found from the bit length. *)
Fixpoint adjust_up (fuel : nat) (n vnum vden : Z) : Z :=
  match fuel with
  | O => n
  | S f => if pow10_le n vnum vden then adjust_up f (n + 1) vnum vden else n
  end.

Fixpoint adjust_down (fuel : nat) (n vnum vden : Z) : Z :=
  match fuel with
  | O => n
  | S f => if pow10_le (n - 1) vnum vden then n else adjust_down f (n - 1) vnum vden
  end.

Definition decimal_exponent (m : positive) (e : Z) : Z :=
  let bits := Zpos (digits2_pos m) + e in
  let est := (bits - 1) * 30103 / 100000 in
  let vnum := exact_num m e in
  let vden := exact_den e in
  adjust_up 4 (adjust_down 4 (est + 1) vnum vden) vnum vden.

(** The Number value of [s * 10^j] for a positive integer [s]. *)
Definition of_decimal (neg : bool) (s : Z) (j : Z) : number :=
  match s with
  | Zpos p =>
      if 0 <=? j then binary_normalize prec emax (cond_Zopp neg (Zpos p * 10 ^ j)) 0 neg
      else round_rational neg p (Z.to_pos (10 ^ (- j)))
  | _ => S754_zero neg
  end.

Definition same_finite (m : positive) (e : Z) (y : number) : bool :=
  match y with
  | S754_finite false m' e' => Pos.eqb m m' && Z.eqb e e'
  | _ => false
  end.

(** The [k]-digit candidates around [v * 10^(k-n)]: its floor and its
    ceiling.  Returns the chosen [(s, n)] when one of them has Number
    value [x]. *)
Definition candidate (m : positive) (e : Z) (n k : Z) : option (Z * Z) :=
  let vnum := exact_num m e in
  let vden := exact_den e in
  let a := if 0 <=? k - n then 10 ^ (k - n) else 1 in
  let b := if 0 <=? k - n then 1 else 10 ^ (n - k) in
  let lo := (vnum * a) / (vden * b) in
  let rem := (vnum * a) mod (vden * b) in
  let hi := lo + 1 in
  let ok_lo := (10 ^ (k - 1) <=? lo) && same_finite m e (of_decimal false lo (n - k)) in
  let ok_hi :=
    negb (rem =? 0) && same_finite m e (of_decimal false hi (n - k)) in
  let norm_hi := if hi =? 10 ^ k then (10 ^ (k - 1), n + 1) else (hi, n) in
  match ok_lo, ok_hi with
  | true, false => Some (lo, n)
  | false, true => Some norm_hi
  | true, true =>
      match Z.compare (2 * rem) (vden * b) with
      | Lt => Some (lo, n)
      | Gt => Some norm_hi
      | Eq => if Z.even lo then Some (lo, n) else Some norm_hi
      end
  | false, false => None
  end.

Fixpoint shortest (fuel : nat) (m : positive) (e : Z) (n k : Z) : Z * Z :=
  match fuel with
  | O => (Zpos m, 0)
  | S f =>
      match candidate m e n k with
      | Some r => r
      | None => shortest f m e n (k + 1)
      end
  end.

Definition format_digits (s n : Z) : string :=
  let digits := digits_of_Z s in
  let k := Z.of_nat (length digits) in
  let exponent :=
    (if 0 <=? n - 1 then "e+" else "e-") ++ digits_of_Z (Z.abs (n - 1)) in
  if (k <=? n) && (n <=? 21) then
    digits ++ repeat_zero (Z.to_nat (n - k))
  else if (0 <? n) && (n <=? 21) then
    JsString.take (Z.to_nat n) digits ++ "." ++ JsString.drop (Z.to_nat n) digits
  else if (-6 <? n) && (n <=? 0) then
    "0." ++ repeat_zero (Z.to_nat (- n)) ++ digits
  else if k =? 1 then
    digits ++ exponent
  else
    JsString.take 1 digits ++ "." ++ JsString.drop 1 digits ++ exponent.

Definition toString (x : number) : string :=
  match x with
  | S754_nan => "NaN"
  | S754_zero _ => "0"
  | S754_infinity false => "Infinity"
  | S754_infinity true => "-Infinity"
  | S754_finite neg m e =>
      let '(s, n) := shortest 17 m e (decimal_exponent m e) 1 in
      (if neg then "-" else "") ++ format_digits s n
  end.

End JsNumber.

(** ** StringToNumber: [Number(s)] on a string *)

Module StringToNumber.
Import JsNumber.

Definition digit_value (base : Z) (c : ascii) : option Z :=
  let n := Z.of_nat (nat_of_ascii c) in
  let v :=
    if (48 <=? n) && (n <=? 57) then n - 48
    else if (97 <=? n) && (n <=? 102) then n - 87
    else if (65 <=? n) && (n <=? 70) then n - 55
    else 99 in
  if v <? base then Some v else None.

(** The longest prefix of digits in [base], as (digit count, value, rest). *)
Fixpoint span_digits (base : Z) (count : nat) (acc : Z) (s : string)
  : nat * Z * string :=
  match s with
  | EmptyString => (count, acc, s)
  | String c s' =>
      match digit_value base c with
      | Some v => span_digits base (S count) (acc * base + v) s'
      | None => (count, acc, s)
      end
  end.

(** NonDecimalIntegerLiteral body: one or more digits, nothing after. *)
Definition radix_literal (base : Z) (s : string) : number :=
  match span_digits base 0 0 s with
  | (S _, v, EmptyString) => binary_normalize prec emax v 0 false
  | _ => NaN
  end.

(** ExponentPart, or nothing: [e] or [E], an optional sign, digits. *)
Definition exponent_part (s : string) : option Z :=
  match s with
  | EmptyString => Some 0
  | String c s' =>
      if Ascii.eqb c "e" || Ascii.eqb c "E" then
        let '(neg, body) :=
          match s' with
          | String "-" b => (true, b)
          | String "+" b => (false, b)
          | _ => (false, s')
          end in
        match span_digits 10 0 0 body with
        | (S _, v, EmptyString) => Some (if neg then - v else v)
        | _ => None
        end
      else None
  end.

(** The Number value of the digit string [d] (with [len] digits) scaled by
    [10^e].  Magnitudes far outside the binary64 range are settled without
    computing the power of ten. *)
Definition scaled (neg : bool) (d : Z) (len : nat) (e : Z) : number :=
  if d =? 0 then S754_zero neg
  else if 400 <? e then S754_infinity neg
  else if e + Z.of_nat len <? -400 then S754_zero neg
  else of_decimal neg d e.

(** StrUnsignedDecimalLiteral: [Infinity], [digits . digits? exp?],
    [. digits exp?] or [digits exp?]. *)
Definition unsigned_decimal (neg : bool) (s : string) : number :=
  if String.eqb s "Infinity" then S754_infinity neg
  else
    let '(ilen, ival, rest) := span_digits 10 0 0 s in
    let '(flen, dval, rest') :=
      match rest with
      | String "." r => span_digits 10 0 ival r
      | _ => (O, ival, rest)
      end in
    match (ilen + flen)%nat, exponent_part rest' with
    | S _, Some e => scaled neg dval (ilen + flen) (e - Z.of_nat flen)
    | _, _ => NaN
    end.

Definition StringToNumber (str : string) : number :=
  match JsString.trim str with
  | EmptyString => S754_zero false
  | String "0" (String "x" r) | String "0" (String "X" r) => radix_literal 16 r
  | String "0" (String "o" r) | String "0" (String "O" r) => radix_literal 8 r
  | String "0" (String "b" r) | String "0" (String "B" r) => radix_literal 2 r
  | String "-" r => unsigned_decimal true r
  | String "+" r => unsigned_decimal false r
  | s => unsigned_decimal false s
  end.

End StringToNumber.

(** ** Values, errors and completions *)

#[local] Unset Elimination Schemes.

(** A value as the script sees it once the manifest is parsed.  Arrays and
    objects carry the reference (address) of the object: strict equality
    on objects compares references, not contents.  [props] lists the own
    enumerable string-keyed properties in the order the engine enumerates
    them.  Nothing in the script mutates an object, so the contents are
    kept next to the reference.  The keys of [props] are pairwise
    distinct. *)
Inductive JsValue : Type :=
| JUndefined
| JNull
| JBool (b : bool)
| JNum (x : JsNumber.number)
| JStr (s : string)
| JArr (ref : nat) (elems : list JsValue)
| JObj (ref : nat) (props : list (string * JsValue)).
#[local] Set Elimination Schemes.

(** A thrown error object: its constructor name and its [message]. *)
Record JsError : Type := mkError { name : string; message : string }.

Definition Error (msg : string) : JsError := mkError "Error" msg.
Definition TypeError (msg : string) : JsError := mkError "TypeError" msg.

(** The outcome of evaluating a piece of code: it completes normally with
    a value or throws. *)
Inductive completion (A : Type) : Type :=
| Normal (a : A)
| Throw (e : JsError).
Arguments Normal {A} a.
Arguments Throw {A} e.

Definition bind {A B : Type} (c : completion A) (k : A -> completion B)
  : completion B :=
  match c with
  | Normal a => k a
  | Throw e => Throw e
  end.

Declare Scope js_scope.
Delimit Scope js_scope with js.
Notation "'let*' x ':=' c 'in' k" := (bind c (fun x => k))
  (at level 10, x pattern, c at level 100, k at level 200) : js_scope.
Notation "c ';;' k" := (bind c (fun _ => k))
  (at level 61, right associativity) : js_scope.
Local Open Scope js_scope.

Definition throws {A : Type} (c : completion A) : bool :=
  match c with Normal _ => false | Throw _ => true end.

Module Js.
Import JsNumber.

Definition dquote : ascii := "034"%char.
Definition quoted (s : string) : string :=
  String dquote (s ++ String dquote "").

(** *** Type conversion *)

Definition ToBoolean (v : JsValue) : bool :=
  match v with
  | JUndefined | JNull => false
  | JBool b => b
  | JNum x => negb (is_zero x || is_nan x)
  | JStr s => negb (String.eqb s "")
  | JArr _ _ | JObj _ _ => true
  end.

Definition has_own (props : list (string * JsValue)) (k : string) : bool :=
  existsb (fun p => String.eqb (fst p) k) props.

Definition not_primitive : JsError :=
  TypeError "Cannot convert object to primitive value".

(** An object of the script has no callable property of its own (no
    function is a [JsValue]), so an own ["toString"] property hides
    [Object.prototype.toString] with something that cannot be called, and
    the conversion to a primitive fails; otherwise it is
    ["[object Object]"]. *)
Definition object_to_primitive (props : list (string * JsValue))
  : completion string :=
  if has_own props "toString" then Throw not_primitive
  else Normal "[object Object]".

(** ToString; an array converts through [join(",")]. *)
Fixpoint ToString (v : JsValue) : completion string :=
  match v with
  | JUndefined => Normal "undefined"
  | JNull => Normal "null"
  | JBool true => Normal "true"
  | JBool false => Normal "false"
  | JNum x => Normal (toString x)
  | JStr s => Normal s
  | JArr _ elems =>
      let fix items (l : list JsValue) : completion (list string) :=
        match l with
        | [] => Normal []
        | e :: l' =>
            let* s := match e with
                      | JUndefined | JNull => Normal ""
                      | _ => ToString e
                      end in
            let* rest := items l' in
            Normal (s :: rest)
        end in
      let* parts := items elems in
      Normal (JsString.join "," parts)
  | JObj _ props => object_to_primitive props
  end.

(** ToPrimitive: primitives are kept, objects convert to a string. *)
Definition ToPrimitive (v : JsValue) : completion JsValue :=
  match v with
  | JArr _ _ | JObj _ _ => let* s := ToString v in Normal (JStr s)
  | _ => Normal v
  end.

(** ToNumber on a primitive. *)
Definition ToNumber_prim (v : JsValue) : number :=
  match v with
  | JUndefined => NaN
  | JNull => S754_zero false
  | JBool true => of_Z 1
  | JBool false => S754_zero false
  | JNum x => x
  | JStr s => StringToNumber.StringToNumber s
  | JArr _ _ | JObj _ _ => NaN
  end.

(** [Number(v)] *)
Definition Number (v : JsValue) : completion number :=
  let* p := ToPrimitive v in Normal (ToNumber_prim p).

(** *** Relational and equality operators *)

Definition lt_prim (px py : JsValue) : bool :=
  match px, py with
  | JStr sx, JStr sy => JsString.ltb sx sy
  | _, _ => JsNumber.ltb (ToNumber_prim px) (ToNumber_prim py)
  end.

Definition le_prim (px py : JsValue) : bool :=
  match px, py with
  | JStr sx, JStr sy => negb (JsString.ltb sy sx)
  | _, _ => JsNumber.leb (ToNumber_prim px) (ToNumber_prim py)
  end.

(** [x < y]: both operands are converted left to right. *)
Definition js_lt (x y : JsValue) : completion bool :=
  let* px := ToPrimitive x in
  let* py := ToPrimitive y in
  Normal (lt_prim px py).

(** [x <= y] *)
Definition js_le (x y : JsValue) : completion bool :=
  let* px := ToPrimitive x in
  let* py := ToPrimitive y in
  Normal (le_prim px py).

Definition reference (v : JsValue) : option nat :=
  match v with
  | JArr r _ | JObj r _ => Some r
  | _ => None
  end.

(** [x === y] *)
Definition strict_equals (x y : JsValue) : bool :=
  match x, y with
  | JUndefined, JUndefined => true
  | JNull, JNull => true
  | JBool a, JBool b => Bool.eqb a b
  | JNum a, JNum b => JsNumber.eqb a b
  | JStr a, JStr b => String.eqb a b
  | _, _ =>
      match reference x, reference y with
      | Some r, Some r' => Nat.eqb r r'
      | _, _ => false
      end
  end.

(** SameValueZero, the comparison of [Array.prototype.includes]. *)
Definition same_value_zero (x y : JsValue) : bool :=
  match x, y with
  | JNum a, JNum b => (is_nan a && is_nan b) || JsNumber.eqb a b
  | _, _ => strict_equals x y
  end.

(** [x || y] *)
Definition or_else (x y : JsValue) : JsValue :=
  if ToBoolean x then x else y.

(** *** Properties *)

Definition Object_prototype_keys : list string :=
  ["constructor"; "__defineGetter__"; "__defineSetter__"; "hasOwnProperty";
   "__lookupGetter__"; "__lookupSetter__"; "isPrototypeOf";
   "propertyIsEnumerable"; "toString"; "valueOf"; "__proto__";
   "toLocaleString"].

Definition Array_prototype_keys : list string :=
  ["length"; "constructor"; "at"; "concat"; "copyWithin"; "fill"; "find";
   "findIndex"; "findLast"; "findLastIndex"; "lastIndexOf"; "pop"; "push";
   "reverse"; "shift"; "unshift"; "slice"; "sort"; "splice"; "includes";
   "indexOf"; "join"; "keys"; "entries"; "values"; "forEach"; "filter";
   "flat"; "flatMap"; "map"; "every"; "some"; "reduce"; "reduceRight";
   "toLocaleString"; "toString"; "toReversed"; "toSorted"; "toSpliced";
   "with"].

Definition mem (k : string) (l : list string) : bool :=
  existsb (String.eqb k) l.

(** The index keys ["0"], ["1"], ... of a sequence of [n] elements. *)
Definition index_keys (n : nat) : list string :=
  map digits_of_nat (seq 0 n).

(** Length in UTF-16 code units of a UTF-8 encoded string. *)
Fixpoint utf16_length (s : string) : nat :=
  match s with
  | EmptyString => O
  | String c s' =>
      let b := nat_of_ascii c in
      ((if b <? 128 then 1 else if b <? 192 then 0 else if b <? 240 then 1 else 2)
       + utf16_length s')%nat
  end.

(** [k in v]: own or inherited property; the right operand must be an
    object. *)
Definition has_property (v : JsValue) (k : string) : completion bool :=
  match v with
  | JObj _ props => Normal (has_own props k || mem k Object_prototype_keys)
  | JArr _ elems =>
      Normal (mem k (index_keys (List.length elems))
              || mem k Array_prototype_keys || mem k Object_prototype_keys)
  | _ =>
      let* s := ToString v in
      Throw (TypeError ("Cannot use 'in' operator to search for '" ++ k
                        ++ "' in " ++ s))
  end.

Fixpoint lookup (props : list (string * JsValue)) (k : string) : JsValue :=
  match props with
  | [] => JUndefined
  | (k', v) :: rest => if String.eqb k' k then v else lookup rest k
  end.

(** [v.k] / [v[k]] for a key that no built-in prototype defines (every
    key the script reads: [dependencies], [next], [react], ...) and that
    is not an index or [length]. *)
Definition get (v : JsValue) (k : string) : completion JsValue :=
  match v with
  | JUndefined | JNull =>
      let* s := ToString v in
      Throw (TypeError ("Cannot read properties of " ++ s ++ " (reading '"
                        ++ k ++ "')"))
  | JObj _ props => Normal (lookup props k)
  | _ => Normal JUndefined
  end.

(** [Object.keys(v)] *)
Definition Object_keys (v : JsValue) : completion (list string) :=
  match v with
  | JUndefined | JNull =>
      Throw (TypeError "Cannot convert undefined or null to object")
  | JObj _ props => Normal (map fst props)
  | JArr _ elems => Normal (index_keys (List.length elems))
  | JStr s => Normal (index_keys (utf16_length s))
  | JBool _ | JNum _ => Normal []
  end.

(** [array.map(f)] for a callback that uses its first argument only. *)
Fixpoint Array_map (f : JsValue -> completion JsValue) (l : list JsValue)
  : completion (list JsValue) :=
  match l with
  | [] => Normal []
  | e :: l' =>
      let* y := f e in
      let* ys := Array_map f l' in
      Normal (y :: ys)
  end.

(** *** JSON.stringify (no replacer, no indentation) *)

Definition hex_digit (n : nat) : ascii :=
  ascii_of_nat (if n <? 10 then 48 + n else 87 + n)%nat.

Definition quote_char (c : ascii) : string :=
  let n := nat_of_ascii c in
  if Ascii.eqb c dquote then String "\" (String dquote "")
  else if Ascii.eqb c "\" then "\\"
  else if (n =? 8)%nat then "\b"
  else if (n =? 9)%nat then "\t"
  else if (n =? 10)%nat then "\n"
  else if (n =? 12)%nat then "\f"
  else if (n =? 13)%nat then "\r"
  else if (n <? 32)%nat then
    "\u00" ++ String (hex_digit (n / 16)) (String (hex_digit (n mod 16)) "")
  else String c "".

Fixpoint quote_body (s : string) : string :=
  match s with
  | EmptyString => String dquote ""
  | String c s' => quote_char c ++ quote_body s'
  end.

(** QuoteJSONString *)
Definition QuoteJSONString (s : string) : string :=
  String dquote (quote_body s).

(** [JSON.stringify(v)]; [None] is the result [undefined]. *)
Fixpoint JSON_stringify (v : JsValue) : option string :=
  match v with
  | JUndefined => None
  | JNull => Some "null"
  | JBool true => Some "true"
  | JBool false => Some "false"
  | JNum x => Some (if is_finite x then toString x else "null")
  | JStr s => Some (QuoteJSONString s)
  | JArr _ elems =>
      let fix items (l : list JsValue) : list string :=
        match l with
        | [] => []
        | e :: l' =>
            match JSON_stringify e with
            | Some s => s
            | None => "null"
            end :: items l'
        end in
      Some ("[" ++ JsString.join "," (items elems) ++ "]")
  | JObj _ props =>
      let fix members (l : list (string * JsValue)) : list string :=
        match l with
        | [] => []
        | (k, e) :: l' =>
            match JSON_stringify e with
            | Some s => (QuoteJSONString k ++ ":" ++ s) :: members l'
            | None => members l'
            end
        end in
      Some ("{" ++ JsString.join "," (members props) ++ "}")
  end.

(** [===] between two results of [JSON.stringify]. *)
Definition option_string_eqb (x y : option string) : bool :=
  match x, y with
  | Some a, Some b => String.eqb a b
  | None, None => true
  | _, _ => false
  end.

(** A value interpolated in a template literal: [`${JSON.stringify(v)}`]. *)
Definition show_json (v : JsValue) : string :=
  match JSON_stringify v with
  | Some s => s
  | None => "undefined"
  end.

(** *** JSON-serializable values

    The values [JSON.stringify] writes without loss of a member: no
    [undefined] anywhere, and every number finite. *)
Fixpoint json_serializable (v : JsValue) : bool :=
  match v with
  | JUndefined => false
  | JNull | JBool _ | JStr _ => true
  | JNum x => is_finite x
  | JArr _ elems =>
      (fix all (l : list JsValue) : bool :=
         match l with
         | [] => true
         | e :: l' => json_serializable e && all l'
         end) elems
  | JObj _ props =>
      (fix all (l : list (string * JsValue)) : bool :=
         match l with
         | [] => true
         | (_, e) :: l' => json_serializable e && all l'
         end) props
  end.

(** Two values taken from one heap: if they are the same object, they have
    the same contents. *)
Definition coherent (a b : JsValue) : Prop :=
  forall r, reference a = Some r -> reference b = Some r -> a = b.

Definition is_nullish (v : JsValue) : bool :=
  match v with JUndefined | JNull => true | _ => false end.

Definition is_object (v : JsValue) : bool :=
  match v with JArr _ _ | JObj _ _ => true | _ => false end.

End Js.

(** ** Regular expressions

    The fragment of the pattern language the script's literals are written
    in: characters, positive classes of ASCII ranges, sequence,
    alternation, greedy star, and the assertions [^] and [$]; no flags. *)

Module RegExp.

Inductive regex : Type :=
| Empty
| Char (c : ascii)
| Class (ranges : list (ascii * ascii))
| Seq (r1 r2 : regex)
| Alt (r1 r2 : regex)
| Star (r : regex)
| Bol
| Eol.

(** A RegExp object: the text between the slashes and its parsed form. *)
Record RegExp : Type := mkRegExp { source : string; pattern : regex }.

Definition in_ranges (ranges : list (ascii * ascii)) (c : ascii) : bool :=
  existsb (fun r => (nat_of_ascii (fst r) <=? nat_of_ascii c)%nat
                    && (nat_of_ascii c <=? nat_of_ascii (snd r))%nat) ranges.

Definition or_try {A : Type} (x y : option A) : option A :=
  match x with Some _ => x | None => y end.

(** The iterations of a star whose body is matched by [body]; [n] bounds
    their number.  An iteration that consumes nothing is rejected, so the
    length of the subject is bound enough. *)
Fixpoint star_loop {A : Type}
  (body : nat -> string -> (nat -> string -> option A) -> option A)
  (k : nat -> string -> option A) (n : nat) (pos : nat) (s : string)
  : option A :=
  match n with
  | O => k pos s
  | S n' =>
      or_try
        (body pos s
           (fun pos' s' =>
              if (String.length s' <? String.length s)%nat
              then star_loop body k n' pos' s' else None))
        (k pos s)
  end.

(** The backtracking matcher, in continuation-passing style: [run r pos s k]
    matches [r] at offset [pos], where [s] is the rest of the subject, and
    hands the offset and the rest after the match to [k].  Alternatives
    are tried in order, and the star takes as many iterations as it can
    first. *)
Fixpoint run {A : Type} (r : regex) (pos : nat) (s : string)
  (k : nat -> string -> option A) : option A :=
  match r with
  | Empty => k pos s
  | Char c =>
      match s with
      | String c' s' => if Ascii.eqb c c' then k (S pos) s' else None
      | EmptyString => None
      end
  | Class ranges =>
      match s with
      | String c' s' => if in_ranges ranges c' then k (S pos) s' else None
      | EmptyString => None
      end
  | Seq r1 r2 => run r1 pos s (fun pos' s' => run r2 pos' s' k)
  | Alt r1 r2 => or_try (run r1 pos s k) (run r2 pos s k)
  | Star r' => star_loop (run r') k (String.length s) pos s
  | Bol => if (pos =? 0)%nat then k pos s else None
  | Eol => match s with EmptyString => k pos s | _ => None end
  end.

(** The first match searching from offset [pos]: (start, end). *)
Fixpoint search (r : regex) (pos : nat) (s : string) : option (nat * nat) :=
  or_try (run r pos s (fun e _ => Some (pos, e)))
    match s with
    | EmptyString => None
    | String _ s' => search r (S pos) s'
    end.

(** [re.exec(s)], as the span of the match. *)
Definition exec (re : RegExp) (s : string) : option (nat * nat) :=
  search (pattern re) 0 s.

(** [re.test(v)]: the argument is converted to a string first. *)
Definition test (re : RegExp) (v : JsValue) : completion bool :=
  let* s := Js.ToString v in
  Normal (match exec re s with Some _ => true | None => false end).

(** [`${re}`] *)
Definition toString (re : RegExp) : string := "/" ++ source re ++ "/".

(** [s.replace(re, replacement)] for a replacement text without [$]. *)
Definition replace (s : string) (re : RegExp) (replacement : string) : string :=
  match exec re s with
  | Some (b, e) => JsString.take b s ++ replacement ++ JsString.drop e s
  | None => s
  end.

(** [/x/] *)
Definition literal_x : RegExp := mkRegExp "x" (Char "x").

(** *** What a pattern matches

    [matches r pos s pos' s']: at offset [pos], with [s] the rest of the
    subject, [r] can match up to offset [pos'], leaving [s']. *)
Inductive matches : regex -> nat -> string -> nat -> string -> Prop :=
| matches_empty pos s :
    matches Empty pos s pos s
| matches_char c pos s :
    matches (Char c) pos (String c s) (S pos) s
| matches_class ranges c pos s :
    in_ranges ranges c = true ->
    matches (Class ranges) pos (String c s) (S pos) s
| matches_seq r1 r2 pos s pos1 s1 pos2 s2 :
    matches r1 pos s pos1 s1 ->
    matches r2 pos1 s1 pos2 s2 ->
    matches (Seq r1 r2) pos s pos2 s2
| matches_alt_left r1 r2 pos s pos' s' :
    matches r1 pos s pos' s' ->
    matches (Alt r1 r2) pos s pos' s'
| matches_alt_right r1 r2 pos s pos' s' :
    matches r2 pos s pos' s' ->
    matches (Alt r1 r2) pos s pos' s'
| matches_star_stop r pos s :
    matches (Star r) pos s pos s
| matches_star_step r pos s pos1 s1 pos2 s2 :
    matches r pos s pos1 s1 ->
    (String.length s1 < String.length s)%nat ->
    matches (Star r) pos1 s1 pos2 s2 ->
    matches (Star r) pos s pos2 s2
| matches_bol s :
    matches Bol 0 s 0 s
| matches_eol pos :
    matches Eol pos "" pos "".

(** The pattern of [re] matches somewhere in [s]. *)
Definition found (re : RegExp) (s : string) : Prop :=
  exists before rest pos' after,
    s = before ++ rest
    /\ matches (pattern re) (String.length before) rest pos' after.

End RegExp.

(** ** The matcher set: [expect(actual)] *)

Module Expect.
Import Js.

(** [throw new Error(msg)] *)
Definition fail (msg : string) : completion unit := Throw (Error msg).
Definition pass : completion unit := Normal tt.

Definition toBe (actual expected : JsValue) : completion unit :=
  if negb (strict_equals actual expected) then
    fail ("Expected " ++ show_json expected ++ ", but got " ++ show_json actual)
  else pass.

Definition toMatch (actual : JsValue) (pattern : RegExp.RegExp)
  : completion unit :=
  let* matched := RegExp.test pattern actual in
  if negb matched then
    fail ("Expected " ++ show_json actual ++ " to match "
          ++ RegExp.toString pattern)
  else pass.

Definition toBeDefined (actual : JsValue) : completion unit :=
  if strict_equals actual JUndefined then fail "Expected value to be defined"
  else pass.

Definition toHaveProperty (actual : JsValue) (prop : string)
  : completion unit :=
  let* missing :=
    if negb (ToBoolean actual) then Normal true
    else let* present := has_property actual prop in Normal (negb present) in
  if missing then fail ("Expected object to have property " ++ prop)
  else pass.

Definition toBeTruthy (actual : JsValue) : completion unit :=
  if negb (ToBoolean actual) then
    fail ("Expected " ++ show_json actual ++ " to be truthy")
  else pass.

Definition toBeGreaterThan (actual expected : JsValue) : completion unit :=
  let* le := js_le actual expected in
  if le then
    let* a := ToString actual in
    let* e := ToString expected in
    fail ("Expected " ++ a ++ " to be greater than " ++ e)
  else pass.

Definition toBeGreaterThanOrEqual (actual expected : JsValue)
  : completion unit :=
  let* lt := js_lt actual expected in
  if lt then
    let* a := ToString actual in
    let* e := ToString expected in
    fail ("Expected " ++ a ++ " to be greater than or equal to " ++ e)
  else pass.

Definition toEqual (actual expected : JsValue) : completion unit :=
  if negb (option_string_eqb (JSON_stringify actual) (JSON_stringify expected))
  then
    fail ("Expected " ++ show_json expected ++ ", but got " ++ show_json actual)
  else pass.

(** [expect(actual).not] *)
Module Not.

(** [actual] is a function here; it is called with no argument. *)
Definition toThrow {A : Type} (actual : unit -> completion A)
  : completion unit :=
  match actual tt with
  | Normal _ => pass
  | Throw e =>
      fail ("Expected function not to throw, but it threw: " ++ message e)
  end.

Definition toMatch (actual : JsValue) (pattern : RegExp.RegExp)
  : completion unit :=
  let* matched := RegExp.test pattern actual in
  if matched then
    fail ("Expected " ++ show_json actual ++ " not to match "
          ++ RegExp.toString pattern)
  else pass.

Definition toBeNull (actual : JsValue) : completion unit :=
  if strict_equals actual JNull then fail "Expected value not to be null"
  else pass.

Definition toBeUndefined (actual : JsValue) : completion unit :=
  if strict_equals actual JUndefined then
    fail "Expected value not to be undefined"
  else pass.

Definition toBe (actual expected : JsValue) : completion unit :=
  if strict_equals actual expected then
    fail ("Expected not to be " ++ show_json expected)
  else pass.

(** [actual.includes(item)]: arrays and strings have the method; on any
    other value that reaches the call, [actual.includes] is not callable. *)
Definition includes (actual item : JsValue) : completion bool :=
  match actual with
  | JArr _ elems => Normal (existsb (same_value_zero item) elems)
  | JStr s => let* i := ToString item in Normal (JsString.includes s i)
  | JUndefined | JNull =>
      let* s := ToString actual in
      Throw (TypeError ("Cannot read properties of " ++ s
                        ++ " (reading 'includes')"))
  | _ => Throw (TypeError "actual.includes is not a function")
  end.

Definition toContain (actual item : JsValue) : completion unit :=
  let* found :=
    if ToBoolean actual then includes actual item else Normal false in
  if found then
    let* i := ToString item in
    fail ("Expected array not to contain " ++ i)
  else pass.

End Not.
End Expect.

(** ** The runner: [test(description, testFn)] and the summary *)

Module Runner.

Inductive stream : Type := Stdout | Stderr.

(** An entry of [failures]: [{ description, error: error.message }]. *)
Record Failure : Type := mkFailure { description : string; error : string }.

(** The script's globals [passCount], [failCount] and [failures], and the
    lines written to the console so far.  The counters are natural
    numbers: a run registers far fewer than 2^53 cases, the range in which
    [++] on a Number is exact. *)
Record State : Type := mkState {
  passCount : nat;
  failCount : nat;
  failures : list Failure;
  console : list (stream * string)
}.

Definition initial : State := mkState 0 0 [] [].

Definition console_log (line : string) (st : State) : State :=
  mkState (passCount st) (failCount st) (failures st)
    (console st ++ [(Stdout, line)]).

Definition console_error (line : string) (st : State) : State :=
  mkState (passCount st) (failCount st) (failures st)
    (console st ++ [(Stderr, line)]).

(** A registered procedure: called with no argument, it completes or
    throws an error object.  The script's procedures only read the parsed
    manifest. *)
Definition TestFn : Type := unit -> completion unit.

Definition test (description : string) (testFn : TestFn) (st : State) : State :=
  match testFn tt with
  | Normal _ =>
      let st := mkState (S (passCount st)) (failCount st) (failures st)
                  (console st) in
      console_log ("✓ " ++ description) st
  | Throw error =>
      let st := mkState (passCount st) (S (failCount st)) (failures st)
                  (console st) in
      let st := mkState (passCount st) (failCount st)
                  (failures st ++ [mkFailure description (message error)])
                  (console st) in
      let st := console_error ("✗ " ++ description) st in
      console_error ("  " ++ message error) st
  end.

(** The top level of the script between the manifest load and the summary
    is a sequence of [console.log(...)] section headers and [test(...)]
    calls. *)
Inductive statement : Type :=
| Log (line : string)
| Test (description : string) (testFn : TestFn).

Definition exec (st : State) (stmt : statement) : State :=
  match stmt with
  | Log line => console_log line st
  | Test description testFn => test description testFn st
  end.

Definition exec_all (stmts : list statement) (st : State) : State :=
  fold_left exec stmts st.

Definition nl : string := String "010"%char "".

(** The summary block; the second component is the argument of
    [process.exit]. *)
Definition summary (st : State) : State * Z :=
  let st := console_log (nl ++ "=== Test Summary ===") st in
  let st := console_log ("✓ Passed: " ++ JsNumber.digits_of_nat (passCount st)) st in
  let st := console_log ("✗ Failed: " ++ JsNumber.digits_of_nat (failCount st)) st in
  let st := console_log
              ("Total: " ++ JsNumber.digits_of_nat (passCount st + failCount st)) st in
  if (0 <? failCount st)%nat then
    let st := console_log (nl ++ "Failures:") st in
    let st := fold_left
                (fun st f =>
                   console_log ("  - " ++ description f ++ ": " ++ error f) st)
                (failures st) st in
    (st, 1)
  else
    (console_log (nl ++ "✓ All tests passed!") st, 0).

(** A whole run, from the first statement after the manifest load to the
    exit. *)
Definition main (stmts : list statement) : State * Z :=
  summary (exec_all stmts initial).

(** The cases of a run, in order. *)
Fixpoint cases (stmts : list statement) : list (string * TestFn) :=
  match stmts with
  | [] => []
  | Log _ :: rest => cases rest
  | Test d f :: rest => (d, f) :: cases rest
  end.

Definition fails (c : string * TestFn) : bool := throws (snd c tt).

Definition failure_of (c : string * TestFn) : list Failure :=
  match snd c tt with
  | Normal _ => []
  | Throw e => [mkFailure (fst c) (message e)]
  end.

(** What one statement writes to the console. *)
Definition report (stmt : statement) : list (stream * string) :=
  match stmt with
  | Log line => [(Stdout, line)]
  | Test d f =>
      match f tt with
      | Normal _ => [(Stdout, "✓ " ++ d)]
      | Throw e => [(Stderr, "✗ " ++ d); (Stderr, "  " ++ message e)]
      end
  end.

Definition passed (stmts : list statement) : nat :=
  List.length (filter (fun c => negb (fails c)) (cases stmts)).

Definition failed (stmts : list statement) : nat :=
  List.length (filter fails (cases stmts)).

End Runner.

(** ** The manifest checks *)

Module Checks.
Import Js.

Definition num (z : Z) : JsValue := JNum (JsNumber.of_Z z).

(** The largest reference inside a value; [{}] and [[]] literals evaluated
    by a check get references above it. *)
Fixpoint max_ref (v : JsValue) : nat :=
  match v with
  | JArr r elems =>
      Nat.max r ((fix go (l : list JsValue) : nat :=
                    match l with
                    | [] => O
                    | e :: l' => Nat.max (max_ref e) (go l')
                    end) elems)
  | JObj r props =>
      Nat.max r ((fix go (l : list (string * JsValue)) : nat :=
                    match l with
                    | [] => O
                    | (_, e) :: l' => Nat.max (max_ref e) (go l')
                    end) props)
  | _ => O
  end.

(** [/^[\^~]/] *)
Definition range_prefix : RegExp.RegExp :=
  RegExp.mkRegExp "^[\^~]"
    (RegExp.Seq RegExp.Bol (RegExp.Class [("^", "^"); ("~", "~")]%char)).

(** [nextVersion.replace(re, replacement)]: only a string has the method. *)
Definition call_replace (nextVersion : JsValue) (re : RegExp.RegExp)
  (replacement : string) : completion string :=
  match nextVersion with
  | JStr s => Normal (RegExp.replace s re replacement)
  | JUndefined | JNull =>
      let* s := ToString nextVersion in
      Throw (TypeError ("Cannot read properties of " ++ s
                        ++ " (reading 'replace')"))
  | _ => Throw (TypeError "nextVersion.replace is not a function")
  end.

(** [cleanVersion.split('.').map(Number)] *)
Definition version_numbers (cleanVersion : string)
  : completion (list JsValue) :=
  Array_map (fun part => let* n := Number part in Normal (JNum n))
    (map JStr (JsString.split cleanVersion ".")).

(** An element of an array destructuring pattern. *)
Definition element (l : list JsValue) (i : nat) : JsValue :=
  nth i l JUndefined.

(** 'should use Next.js 15.5.10 or higher to fix vulnerability' *)
Definition uses_fixed_next (packageJson : JsValue) : completion unit :=
  let* dependencies := get packageJson "dependencies" in
  let* nextVersion := get dependencies "next" in
  let* cleanVersion := call_replace nextVersion range_prefix "" in
  let* parts := version_numbers cleanVersion in
  let major := element parts 0 in
  let minor := element parts 1 in
  let patch := element parts 2 in
  Expect.toBeGreaterThanOrEqual major (num 15);;
  if strict_equals major (num 15) then
    Expect.toBeGreaterThanOrEqual minor (num 5);;
    if strict_equals minor (num 5) then
      Expect.toBeGreaterThanOrEqual patch (num 10)
    else Normal tt
  else Normal tt.

(** [a || b] and [a && b] on conditions that may throw; the right operand
    is evaluated only when needed. *)
Definition orb_lazy (a : completion bool) (b : unit -> completion bool)
  : completion bool :=
  let* x := a in if x then Normal true else b tt.

Definition andb_lazy (a : completion bool) (b : unit -> completion bool)
  : completion bool :=
  let* x := a in if x then b tt else Normal false.

(** 'should not use vulnerable Next.js versions' *)
Definition not_vulnerable_next (packageJson : JsValue) : completion unit :=
  let* dependencies := get packageJson "dependencies" in
  let* nextVersion := get dependencies "next" in
  let* cleanVersion := call_replace nextVersion range_prefix "" in
  let* parts := version_numbers cleanVersion in
  let major := element parts 0 in
  let minor := element parts 1 in
  let patch := element parts 2 in
  let* isVulnerable :=
    orb_lazy
      (orb_lazy (js_lt major (num 15))
         (fun _ => andb_lazy (Normal (strict_equals major (num 15)))
                     (fun _ => js_lt minor (num 5))))
      (fun _ =>
         andb_lazy
           (andb_lazy (Normal (strict_equals major (num 15)))
              (fun _ => Normal (strict_equals minor (num 5))))
           (fun _ => js_lt patch (num 10))) in
  Expect.toBe (JBool isVulnerable) (JBool false).

(** 'should use consistent React versions' *)
Definition consistent_react (packageJson : JsValue) : completion unit :=
  let* dependencies := get packageJson "dependencies" in
  let* reactVersion := get dependencies "react" in
  let* dependencies' := get packageJson "dependencies" in
  let* reactDomVersion := get dependencies' "react-dom" in
  Expect.toBe reactVersion reactDomVersion.

(** 'should not have duplicate dependencies' *)
Definition no_duplicate_dependencies (packageJson : JsValue)
  : completion unit :=
  let fresh := S (max_ref packageJson) in
  let* dependencies := get packageJson "dependencies" in
  let* depKeys := Object_keys (or_else dependencies (JObj fresh [])) in
  let* devDependencies := get packageJson "devDependencies" in
  let* devDepKeys :=
    Object_keys (or_else devDependencies (JObj (fresh + 1) [])) in
  let duplicates := filter (fun dep => mem dep devDepKeys) depKeys in
  Expect.toEqual (JArr (fresh + 2) (map JStr duplicates)) (JArr (fresh + 3) []).

(** The manifest of the concrete scenarios:
    [{"name":"@scope/pkg","version":"1.0.0","private":true,
      "dependencies":{...},"devDependencies":{...}}]. *)
Definition scenario (dependencies devDependencies : list (string * JsValue))
  : JsValue :=
  JObj 0 [("name", JStr "@scope/pkg"); ("version", JStr "1.0.0");
          ("private", JBool true);
          ("dependencies", JObj 1 dependencies);
          ("devDependencies", JObj 2 devDependencies)].

End Checks.

(** ** The text of arrays and objects

    The element and member texts that [JSON.stringify] joins, as functions
    of their own. *)

Module JsonText.
Import Js.

(** The text of an array element: [undefined] is written as [null]. *)
Definition item_text (e : JsValue) : string :=
  match JSON_stringify e with
  | Some s => s
  | None => "null"
  end.

(** The texts of the members of an object: a member whose value has no
    text is left out. *)
Fixpoint member_texts (l : list (string * JsValue)) : list string :=
  match l with
  | [] => []
  | (k, e) :: l' =>
      match JSON_stringify e with
      | Some s => (QuoteJSONString k ++ ":" ++ s) :: member_texts l'
      | None => member_texts l'
      end
  end.

End JsonText.

(** ** Version texts and the numbers they denote *)

Module Semver.

Definition is_digit (c : ascii) : bool :=
  (48 <=? nat_of_ascii c)%nat && (nat_of_ascii c <=? 57)%nat.

Fixpoint all_digits (s : string) : bool :=
  match s with
  | EmptyString => true
  | String c s' => is_digit c && all_digits s'
  end.

(** A segment of a version: one or more decimal digits. *)
Definition is_decimal (s : string) : bool :=
  negb (String.eqb s "") && all_digits s.

Fixpoint decimal_value_from (acc : Z) (s : string) : Z :=
  match s with
  | EmptyString => acc
  | String c s' =>
      decimal_value_from (acc * 10 + (Z.of_nat (nat_of_ascii c) - 48)) s'
  end.

(** The integer a string of decimal digits denotes. *)
Definition decimal_value (s : string) : Z := decimal_value_from 0 s.

(** An integer every Number holds exactly: [0 <= z < 2^53]. *)
Definition safe_integer (z : Z) : Prop := 0 <= z < 2 ^ 53.

(** [major.minor.patch >= 15.5.10] in version order. *)
Definition at_least_15_5_10 (major minor patch : Z) : bool :=
  (15 <? major)
  || ((major =? 15) && ((5 <? minor) || ((minor =? 5) && (10 <=? patch)))).

(** The range prefixes the checks strip: none, [^] or [~]. *)
Definition is_range_prefix (s : string) : bool :=
  String.eqb s "" || String.eqb s "^" || String.eqb s "~".

Fixpoint no_dot (s : string) : bool :=
  match s with
  | EmptyString => true
  | String c s' => negb (Ascii.eqb c ".") && no_dot s'
  end.

(** What follows the major segment when there is no numeric minor
    segment: nothing, or a dot and a segment that [Number] maps to NaN. *)
Definition minor_not_numeric (rest : string) : Prop :=
  rest = ""
  \/ exists seg more,
       rest = "." ++ seg ++ more
       /\ no_dot seg = true
       /\ JsNumber.is_nan (StringToNumber.StringToNumber seg) = true
       /\ (more = "" \/ exists m, more = String "." m).

(** The mantissa of the Number for the positive integer [p]: [p] shifted
    to 53 bits. *)
Definition mantissa_of (p : positive) : positive :=
  match (53 - Zpos (digits2_pos p))%Z with
  | Zpos k => Pos.iter xO p k
  | _ => p
  end.

End Semver.

(** ** Reading the console *)

Module Console.
Import Runner.

Definition on_stderr (l : stream * string) : bool :=
  match fst l with Stderr => true | Stdout => false end.

(** The line the summary prints for a recorded failure. *)
Definition failure_line (f : Failure) : stream * string :=
  (Stdout, "  - " ++ description f ++ ": " ++ error f).

(** The four lines that open the summary, for given counts. *)
Definition count_lines (passed failed : nat) : list (stream * string) :=
  [(Stdout, nl ++ "=== Test Summary ===");
   (Stdout, "✓ Passed: " ++ JsNumber.digits_of_nat passed);
   (Stdout, "✗ Failed: " ++ JsNumber.digits_of_nat failed);
   (Stdout, "Total: " ++ JsNumber.digits_of_nat (passed + failed))].

Definition failures_header : stream * string := (Stdout, nl ++ "Failures:").
Definition all_passed_line : stream * string :=
  (Stdout, nl ++ "✓ All tests passed!").

End Console.

(** ** The script: load, the registered cases, exit *)

Module Script.
Import Js Runner Checks.

(** *** Built-ins the remaining cases use *)

(** [for (const x of l) f(x)], as [l.forEach(f)] runs it: in order, up to
    the first call that throws. *)
Fixpoint forEach {A : Type} (l : list A) (f : A -> completion unit)
  : completion unit :=
  match l with
  | [] => Normal tt
  | x :: l' => f x;; forEach l' f
  end.

(** A member expression rooted at a value: [v.k1.k2...]. *)
Fixpoint member (v : JsValue) (path : list string) : completion JsValue :=
  match path with
  | [] => Normal v
  | k :: rest => let* x := get v k in member x rest
  end.

(** The three bytes that encode the code unit [u] (a surrogate, here). *)
Definition encode3 (u : N) : string :=
  string_of_list_ascii
    (map ascii_of_N
       [224 + u / 4096; 128 + (u / 64) mod 64; 128 + u mod 64]%N).

(** The two surrogates of the code point with the four-byte encoding
    [b0 b1 b2 b3]. *)
Definition surrogates (b0 b1 b2 b3 : ascii) : list string :=
  let cp := ((N_of_ascii b0 mod 8) * 262144 + (N_of_ascii b1 mod 64) * 4096
             + (N_of_ascii b2 mod 64) * 64 + N_of_ascii b3 mod 64)%N in
  let c := (cp - 65536)%N in
  [encode3 (55296 + c / 1024)%N; encode3 (56320 + c mod 1024)%N].

(** The UTF-16 code units of a string, each as a string of its own. *)
Fixpoint code_units (s : string) : list string :=
  match s with
  | EmptyString => []
  | String b0 s1 =>
      let n0 := nat_of_ascii b0 in
      if (n0 <? 192)%nat then String b0 "" :: code_units s1
      else if (n0 <? 224)%nat then
        match s1 with
        | String b1 s2 => String b0 (String b1 "") :: code_units s2
        | _ => String b0 "" :: code_units s1
        end
      else if (n0 <? 240)%nat then
        match s1 with
        | String b1 (String b2 s3) =>
            String b0 (String b1 (String b2 "")) :: code_units s3
        | _ => String b0 "" :: code_units s1
        end
      else
        match s1 with
        | String b1 (String b2 (String b3 s4)) =>
            (surrogates b0 b1 b2 b3 ++ code_units s4)%list
        | _ => String b0 "" :: code_units s1
        end
  end.

(** [Object.entries(v)] *)
Definition Object_entries (v : JsValue)
  : completion (list (string * JsValue)) :=
  match v with
  | JUndefined | JNull =>
      Throw (TypeError "Cannot convert undefined or null to object")
  | JObj _ props => Normal props
  | JArr _ elems => Normal (combine (index_keys (List.length elems)) elems)
  | JStr s =>
      Normal (combine (index_keys (utf16_length s)) (map JStr (code_units s)))
  | JBool _ | JNum _ => Normal []
  end.

(** [parseInt(v)] with no radix: leading white space, a sign, an optional
    [0x], then the longest run of digits; NaN when there is none. *)
Definition parseInt (v : JsValue) : completion JsNumber.number :=
  let* inputString := ToString v in
  let trimmed :=
    JsString.strip (String.length inputString) JsString.white_space
      inputString in
  let '(negative, unsigned) :=
    match trimmed with
    | String "-" r => (true, r)
    | String "+" r => (false, r)
    | _ => (false, trimmed)
    end in
  let '(radix, body) :=
    match unsigned with
    | String "0" (String "x" r) | String "0" (String "X" r) => (16, r)
    | _ => (10, unsigned)
    end in
  match StringToNumber.span_digits radix 0 0 body with
  | (O, _, _) => Normal JsNumber.NaN
  | (S _, mathInt, _) =>
      Normal (binary_normalize JsNumber.prec JsNumber.emax
                (if negative then - mathInt else mathInt) 0 negative)
  end.

(** *** The pattern literals of the script *)

Definition plus (r : RegExp.regex) : RegExp.regex :=
  RegExp.Seq r (RegExp.Star r).

Fixpoint literal (s : string) : RegExp.regex :=
  match s with
  | EmptyString => RegExp.Empty
  | String c s' => RegExp.Seq (RegExp.Char c) (literal s')
  end.

Definition digit : RegExp.regex := RegExp.Class [("0", "9")]%char.

(** [[a-z0-9-~]] and [[a-z0-9-._~]] *)
Definition name_start : RegExp.regex :=
  RegExp.Class [("a", "z"); ("0", "9"); ("-", "-"); ("~", "~")]%char.
Definition name_rest : RegExp.regex :=
  RegExp.Class [("a", "z"); ("0", "9"); ("-", "-"); (".", "."); ("_", "_");
                ("~", "~")]%char.

(** [/^@[a-z0-9-~][a-z0-9-._~]*\/[a-z0-9-~][a-z0-9-._~]*$/] *)
Definition scoped_name_format : RegExp.RegExp :=
  RegExp.mkRegExp "^@[a-z0-9-~][a-z0-9-._~]*\/[a-z0-9-~][a-z0-9-._~]*$"
    (RegExp.Seq RegExp.Bol
       (RegExp.Seq (RegExp.Char "@")
          (RegExp.Seq name_start
             (RegExp.Seq (RegExp.Star name_rest)
                (RegExp.Seq (RegExp.Char "/")
                   (RegExp.Seq name_start
                      (RegExp.Seq (RegExp.Star name_rest) RegExp.Eol))))))).

(** [/^\d+\.\d+\.\d+$/] *)
Definition three_numbers : RegExp.RegExp :=
  RegExp.mkRegExp "^\d+\.\d+\.\d+$"
    (RegExp.Seq RegExp.Bol
       (RegExp.Seq (plus digit)
          (RegExp.Seq (RegExp.Char ".")
             (RegExp.Seq (plus digit)
                (RegExp.Seq (RegExp.Char ".")
                   (RegExp.Seq (plus digit) RegExp.Eol)))))).

(** [/^@coral-xyz\//] *)
Definition coral_scope : RegExp.RegExp :=
  RegExp.mkRegExp "^@coral-xyz\/"
    (RegExp.Seq RegExp.Bol (literal "@coral-xyz/")).

(** [/^[._]/] *)
Definition leading_dot_or_underscore : RegExp.RegExp :=
  RegExp.mkRegExp "^[._]"
    (RegExp.Seq RegExp.Bol (RegExp.Class [(".", "."); ("_", "_")]%char)).

(** [/[A-Z]/] *)
Definition uppercase : RegExp.RegExp :=
  RegExp.mkRegExp "[A-Z]" (RegExp.Class [("A", "Z")]%char).

(** [/\s/]: any WhiteSpace or LineTerminator code point. *)
Definition white_space_char : RegExp.RegExp :=
  RegExp.mkRegExp "\s"
    (fold_right (fun w r => RegExp.Alt (literal w) r) (RegExp.Class [])
       JsString.white_space).

(** *** The cases

    Each takes the parsed manifest [packageJson]; the cases of the two
    Next.js checks, of the React consistency and of the duplicate
    dependencies are [Checks.uses_fixed_next], [Checks.not_vulnerable_next],
    [Checks.consistent_react] and [Checks.no_duplicate_dependencies]. *)

(** A run of [expect(packageJson.<path>).toHaveProperty(key)] statements,
    one per key. *)
Definition has_properties (packageJson : JsValue) (path keys : list string)
  : completion unit :=
  forEach keys
    (fun key => let* object := member packageJson path in
                Expect.toHaveProperty object key).

(** [expect(packageJson.<path>).toBe(text)] *)
Definition is_text (packageJson : JsValue) (path : list string)
  (text : string) : completion unit :=
  let* value := member packageJson path in
  Expect.toBe value (JStr text).

(** [expect(packageJson.<path>).toMatch(pattern)] *)
Definition field_matches (packageJson : JsValue) (path : list string)
  (pattern : RegExp.RegExp) : completion unit :=
  let* value := member packageJson path in
  Expect.toMatch value pattern.

Definition no_match (packageJson : JsValue) (path : list string)
  (pattern : RegExp.RegExp) : completion unit :=
  let* value := member packageJson path in
  Expect.Not.toMatch value pattern.

Definition is_defined (packageJson : JsValue) (path : list string)
  : completion unit :=
  let* value := member packageJson path in
  Expect.toBeDefined value.

(** 'should have a valid name field' *)
Definition valid_name (packageJson : JsValue) : completion unit :=
  is_text packageJson ["name"] "@coral-xyz/backpack-web";;
  field_matches packageJson ["name"] scoped_name_format.

(** 'should have a valid version field' *)
Definition valid_version (packageJson : JsValue) : completion unit :=
  is_text packageJson ["version"] "1.0.0";;
  field_matches packageJson ["version"] three_numbers.

(** 'should be marked as private' and 'should be compatible with monorepo' *)
Definition marked_private (packageJson : JsValue) : completion unit :=
  let* value := member packageJson ["private"] in
  Expect.toBe value (JBool true).

(** 'should have all required top-level fields' *)
Definition required_fields (packageJson : JsValue) : completion unit :=
  has_properties packageJson []
    ["name"; "version"; "scripts"; "dependencies"; "devDependencies"].

(** 'should define all necessary npm scripts' *)
Definition necessary_scripts (packageJson : JsValue) : completion unit :=
  is_defined packageJson ["scripts"];;
  has_properties packageJson ["scripts"]
    ["dev"; "build"; "start"; "lint"; "lint:fix"; "test"].

(** 'should have valid Next.js script commands' *)
Definition next_commands (packageJson : JsValue) : completion unit :=
  is_text packageJson ["scripts"; "dev"] "next dev";;
  is_text packageJson ["scripts"; "build"] "next build";;
  is_text packageJson ["scripts"; "start"] "next start".

(** 'should have valid lint script commands' *)
Definition lint_commands (packageJson : JsValue) : completion unit :=
  is_text packageJson ["scripts"; "lint"] "next lint";;
  is_text packageJson ["scripts"; "lint:fix"] "next lint --fix".

(** 'should have required production dependencies' *)
Definition production_dependencies (packageJson : JsValue)
  : completion unit :=
  has_properties packageJson ["dependencies"] ["next"; "react"; "react-dom"].

(** 'should have React 18.2.0 pinned' *)
Definition react_pinned (packageJson : JsValue) : completion unit :=
  is_text packageJson ["dependencies"; "react"] "18.2.0";;
  is_text packageJson ["dependencies"; "react-dom"] "18.2.0".

(** The four cases that look for keys of [devDependencies], and the two
    regression cases that do. *)
Definition dev_dependencies (packageJson : JsValue) (keys : list string)
  : completion unit :=
  has_properties packageJson ["devDependencies"] keys.

(** 'should use caret or greater for Next.js for security patches' *)
Definition next_has_range (packageJson : JsValue) : completion unit :=
  field_matches packageJson ["dependencies"; "next"] range_prefix.

(** 'should use scoped package name' *)
Definition scoped_name (packageJson : JsValue) : completion unit :=
  field_matches packageJson ["name"] coral_scope.

(** 'should not have nullish dependencies' *)
Definition no_nullish_dependencies (packageJson : JsValue)
  : completion unit :=
  let fresh := S (max_ref packageJson) in
  let* dependencies := member packageJson ["dependencies"] in
  let* entries := Object_entries (or_else dependencies (JObj fresh [])) in
  forEach entries
    (fun entry =>
       let version := snd entry in
       Expect.Not.toBeNull version;;
       Expect.Not.toBeUndefined version;;
       Expect.Not.toBe version (JStr "")).

(** 'should validate package name format' *)
Definition name_format (packageJson : JsValue) : completion unit :=
  no_match packageJson ["name"] leading_dot_or_underscore;;
  no_match packageJson ["name"] uppercase;;
  no_match packageJson ["name"] white_space_char.

Definition testRelatedPackages : list string := ["jest"; "mocha"; "chai"].

(** 'should not include test deps in production' *)
Definition no_test_dependencies (packageJson : JsValue) : completion unit :=
  let fresh := S (max_ref packageJson) in
  let* dependencies := member packageJson ["dependencies"] in
  let* prodDeps := Object_keys (or_else dependencies (JObj fresh [])) in
  forEach testRelatedPackages
    (fun testPkg =>
       let hasTestDep :=
         existsb (fun dep => JsString.includes dep testPkg) prodDeps in
       if hasTestDep then
         Throw (Error ("Found test dependency " ++ testPkg
                       ++ " in production dependencies"))
       else Normal tt).

(** 'should maintain backward compatibility' *)
Definition backward_compatible (packageJson : JsValue) : completion unit :=
  is_defined packageJson ["scripts"; "build"];;
  is_defined packageJson ["scripts"; "start"].

(** 'should be on Next.js 15' *)
Definition on_next_15 (packageJson : JsValue) : completion unit :=
  let* nextVersion := member packageJson ["dependencies"; "next"] in
  let* cleanVersion := call_replace nextVersion range_prefix "" in
  let first := element (map JStr (JsString.split cleanVersion ".")) 0 in
  let* major := parseInt first in
  Expect.toBe (JNum major) (num 15).

(** *** The program *)

Section Program.

(** [JSON.parse], left to the engine. *)
Variable JSON_parse : string -> completion JsValue.

(** 'should be valid JSON' *)
Definition valid_json (packageJsonContent : string) : completion unit :=
  Expect.Not.toThrow (fun _ => JSON_parse packageJsonContent).

(** The statements between the load and the summary, in order. *)
Definition statements (packageJsonContent : string) (packageJson : JsValue)
  : list statement :=
  [Log (nl ++ "=== Running web/package.json validation tests ===" ++ nl);
   Log "Structure and Validity:";
   Test "should be valid JSON" (fun _ => valid_json packageJsonContent);
   Test "should have a valid name field" (fun _ => valid_name packageJson);
   Test "should have a valid version field"
     (fun _ => valid_version packageJson);
   Test "should be marked as private" (fun _ => marked_private packageJson);
   Test "should have all required top-level fields"
     (fun _ => required_fields packageJson);
   Log (nl ++ "Scripts:");
   Test "should define all necessary npm scripts"
     (fun _ => necessary_scripts packageJson);
   Test "should have valid Next.js script commands"
     (fun _ => next_commands packageJson);
   Test "should have valid lint script commands"
     (fun _ => lint_commands packageJson);
   Log (nl ++ "Dependencies:");
   Test "should have required production dependencies"
     (fun _ => production_dependencies packageJson);
   Test "should use Next.js 15.5.10 or higher to fix vulnerability"
     (fun _ => uses_fixed_next packageJson);
   Test "should have React 18.2.0 pinned" (fun _ => react_pinned packageJson);
   Test "should not have duplicate dependencies"
     (fun _ => no_duplicate_dependencies packageJson);
   Log (nl ++ "DevDependencies:");
   Test "should include essential Next.js and React dev dependencies"
     (fun _ => dev_dependencies packageJson
                 ["@types/react"; "@types/react-dom"; "@types/node";
                  "typescript"]);
   Test "should include Jest test dependencies"
     (fun _ => dev_dependencies packageJson
                 ["jest"; "ts-jest"; "@jest/globals"; "@types/jest"]);
   Test "should include Tailwind CSS and plugins"
     (fun _ => dev_dependencies packageJson
                 ["tailwindcss"; "postcss"; "autoprefixer"]);
   Test "should include ESLint and Prettier"
     (fun _ => dev_dependencies packageJson ["eslint"; "prettier"]);
   Log (nl ++ "Security and Vulnerability Fixes:");
   Test "should not use vulnerable Next.js versions"
     (fun _ => not_vulnerable_next packageJson);
   Test "should use caret or greater for Next.js for security patches"
     (fun _ => next_has_range packageJson);
   Log (nl ++ "Dependency Version Consistency:");
   Test "should use consistent React versions"
     (fun _ => consistent_react packageJson);
   Log (nl ++ "Workspace Compatibility:");
   Test "should use scoped package name" (fun _ => scoped_name packageJson);
   Test "should be compatible with monorepo"
     (fun _ => marked_private packageJson);
   Log (nl ++ "Edge Cases and Validations:");
   Test "should not have nullish dependencies"
     (fun _ => no_nullish_dependencies packageJson);
   Test "should validate package name format"
     (fun _ => name_format packageJson);
   Test "should not include test deps in production"
     (fun _ => no_test_dependencies packageJson);
   Log (nl ++ "Regression Tests:");
   Test "should maintain backward compatibility"
     (fun _ => backward_compatible packageJson);
   Test "should be on Next.js 15" (fun _ => on_next_15 packageJson);
   Test "should preserve Tailwind plugins"
     (fun _ => dev_dependencies packageJson
                 ["@tailwindcss/aspect-ratio"; "@tailwindcss/forms";
                  "@tailwindcss/typography"]);
   Test "should maintain HeadlessUI and Heroicons"
     (fun _ => dev_dependencies packageJson
                 ["@headlessui/react"; "@heroicons/react"])].



End Program.

(** The values the nullish-dependency case rejects: [null], [undefined]
    and the empty string. *)
Definition blank (v : JsValue) : bool :=
  match v with
  | JNull | JUndefined => true
  | JStr s => String.eqb s ""
  | _ => false
  end.

(** The keys of [devDependencies] that the six cases on it ask for. *)
Definition dev_keys : list string :=
  ["@types/react"; "@types/react-dom"; "@types/node"; "typescript";
   "jest"; "ts-jest"; "@jest/globals"; "@types/jest"; "tailwindcss";
   "postcss"; "autoprefixer"; "eslint"; "prettier";
   "@tailwindcss/aspect-ratio"; "@tailwindcss/forms";
   "@tailwindcss/typography"; "@headlessui/react"; "@heroicons/react"].

(** A key that no built-in prototype supplies and that is not an index:
    only an own property of a plain object can answer for it. *)
Definition plain_key (k : string) : bool :=
  match k with
  | EmptyString => false
  | String c _ =>
      negb (Semver.is_digit c) && negb (mem k Object_prototype_keys)
      && negb (mem k Array_prototype_keys)
  end.

(** A manifest that satisfies every case, for the examples below. *)
Definition reference_manifest : JsValue :=
  JObj 0
    [("name", JStr "@coral-xyz/backpack-web");
     ("version", JStr "1.0.0");
     ("private", JBool true);
     ("scripts",
      JObj 1 [("dev", JStr "next dev"); ("build", JStr "next build");
              ("start", JStr "next start"); ("lint", JStr "next lint");
              ("lint:fix", JStr "next lint --fix"); ("test", JStr "jest")]);
     ("dependencies",
      JObj 2 [("next", JStr "^15.5.10"); ("react", JStr "18.2.0");
              ("react-dom", JStr "18.2.0")]);
     ("devDependencies",
      JObj 3
        (map (fun k => (k, JStr "^1.0.0"))
           ["@types/react"; "@types/react-dom"; "@types/node"; "typescript";
            "jest"; "ts-jest"; "@jest/globals"; "@types/jest"; "tailwindcss";
            "postcss"; "autoprefixer"; "eslint"; "prettier";
            "@tailwindcss/aspect-ratio"; "@tailwindcss/forms";
            "@tailwindcss/typography"; "@headlessui/react";
            "@heroicons/react"]))].

End Script.

(** * Properties *)

(** ** The ECMAScript layer on known values *)

Section EngineExamples.
Import Js.

Example toString_integers :
  map (fun z => JsNumber.toString (JsNumber.of_Z z))
    [0; 15; -120; 2 ^ 53; 2 ^ 60; 10 ^ 21; 10 ^ 23]
  = ["0"; "15"; "-120"; "9007199254740992"; "1152921504606847000"; "1e+21";
     "1e+23"].
Proof. vm_compute. reflexivity. Qed.

Example toString_fractions :
  map (fun pq => JsNumber.toString
                   (JsNumber.round_rational false (fst pq) (snd pq)))
    [(1, 10); (1, 3); (3, 2); (1, 1000000); (1, 10000000); (123456, 1000)]%positive
  = ["0.1"; "0.3333333333333333"; "1.5"; "0.000001"; "1e-7"; "123.456"].
Proof. vm_compute. reflexivity. Qed.

Example toString_extremes :
  JsNumber.toString (S754_finite false 1 (-1074)) = "5e-324"
  /\ JsNumber.toString (S754_finite false (2 ^ 53 - 1) 971)
     = "1.7976931348623157e+308"
  /\ JsNumber.toString JsNumber.NaN = "NaN"
  /\ JsNumber.toString (S754_infinity true) = "-Infinity".
Proof. vm_compute. repeat split. Qed.

Example Number_of_strings :
  map (fun s => JsNumber.toString (StringToNumber.StringToNumber s))
    ["15"; ""; "  12 "; "0x1F"; "1e3"; "1.5"; "-7"; "+.5e1"; "x"; "1e"; ".";
     "1."; "12abc"; "0b101"; "1_0"; "00015"; "9007199254740993"; "- 1";
     "Infinity"; "1e400"; "1e-400"]
  = ["15"; "0"; "12"; "31"; "1000"; "1.5"; "-7"; "5"; "NaN"; "NaN"; "NaN";
     "1"; "NaN"; "5"; "NaN"; "15"; "9007199254740992"; "NaN";
     "Infinity"; "Infinity"; "0"].
Proof. vm_compute. reflexivity. Qed.

Example split_examples :
  JsString.split "15.5.10" "." = ["15"; "5"; "10"]
  /\ JsString.split "" "." = [""]
  /\ JsString.split "a..b." "." = ["a"; ""; "b"; ""]
  /\ JsString.split "abc" "" = ["a"; "b"; "c"].
Proof. repeat split. Qed.

Example regexp_examples :
  RegExp.exec Checks.range_prefix "^15.5.10" = Some (0, 1)%nat
  /\ RegExp.exec Checks.range_prefix "~15.5.10" = Some (0, 1)%nat
  /\ RegExp.exec Checks.range_prefix "15^" = None
  /\ RegExp.exec RegExp.literal_x "abxx" = Some (2, 3)%nat
  /\ RegExp.exec
       (RegExp.mkRegExp "a*b" (RegExp.Seq (RegExp.Star (RegExp.Char "a"))
                                 (RegExp.Char "b"))) "caaab"
     = Some (1, 5)%nat.
Proof. repeat split. Qed.

Example stringify_example :
  JSON_stringify
    (JObj 0 [("k", JNum (JsNumber.of_Z 1));
             ("a b", JArr 1 [JNull; JUndefined; JStr "x\y"; JBool true]);
             ("u", JUndefined)])
  = Some ("{" ++ quoted "k" ++ ":1," ++ quoted "a b" ++ ":[null,null,"
          ++ quoted "x\\y" ++ ",true]}").
Proof. vm_compute. reflexivity. Qed.

Example run_of_two_cases :
  let run :=
    Runner.main
      [Runner.Log "Dependencies:";
       Runner.Test "passes" (fun _ => Expect.toBe JNull JNull);
       Runner.Test "fails" (fun _ => Expect.toBe JNull (JBool true))] in
  Runner.passCount (fst run) = 1%nat
  /\ Runner.failCount (fst run) = 1%nat
  /\ Runner.failures (fst run)
     = [Runner.mkFailure "fails" "Expected true, but got null"]
  /\ snd run = 1.
Proof. vm_compute. repeat split. Qed.

End EngineExamples.

(** ** The runner *)

Section RunnerFacts.
Import Runner.

Lemma passed_failed_total (stmts : list statement) :
  (passed stmts + failed stmts = List.length (cases stmts))%nat.
Proof.
  unfold passed, failed.
  induction (cases stmts) as [|c cs IH]; simpl; [reflexivity|].
  destruct (fails c); simpl; lia.
Qed.

Lemma passed_is_difference (stmts : list statement) :
  (passed stmts = List.length (cases stmts) - failed stmts)%nat.
Proof. pose proof (passed_failed_total stmts). lia. Qed.

Lemma failure_of_length (c : string * TestFn) :
  List.length (failure_of c) = if fails c then 1%nat else 0%nat.
Proof. unfold failure_of, fails, throws. destruct (snd c tt); reflexivity. Qed.

Lemma failures_length (cs : list (string * TestFn)) :
  List.length (flat_map failure_of cs) = List.length (filter fails cs).
Proof.
  induction cs as [|c cs IH]; simpl; [reflexivity|].
  rewrite length_app, failure_of_length, IH.
  destruct (fails c); reflexivity.
Qed.

(** One statement from any state: how each global moves. *)
Lemma exec_effect (st : State) (stmt : statement) :
  passCount (exec st stmt) = (passCount st + passed [stmt])%nat
  /\ failCount (exec st stmt) = (failCount st + failed [stmt])%nat
  /\ failures (exec st stmt) = (failures st ++ flat_map failure_of (cases [stmt]))%list
  /\ console (exec st stmt) = (console st ++ report stmt)%list.
Proof.
  destruct stmt as [line|d f]; unfold passed, failed; simpl.
  - rewrite !Nat.add_0_r, app_nil_r. repeat split; reflexivity.
  - unfold test, failure_of, fails, throws; simpl.
    destruct (f tt) as [u|e]; simpl.
    + rewrite Nat.add_0_r, app_nil_r, Nat.add_1_r. repeat split; reflexivity.
    + rewrite Nat.add_0_r, Nat.add_1_r, <- app_assoc. repeat split; reflexivity.
Qed.

Lemma cases_app (xs ys : list statement) :
  cases (xs ++ ys) = (cases xs ++ cases ys)%list.
Proof.
  induction xs as [|[line|d f] xs IH]; simpl; [reflexivity|exact IH|].
  now rewrite IH.
Qed.

Lemma passed_cons (stmt : statement) (stmts : list statement) :
  passed (stmt :: stmts) = (passed [stmt] + passed stmts)%nat.
Proof.
  unfold passed. change (stmt :: stmts) with ([stmt] ++ stmts)%list.
  now rewrite cases_app, filter_app, length_app.
Qed.

Lemma failed_cons (stmt : statement) (stmts : list statement) :
  failed (stmt :: stmts) = (failed [stmt] + failed stmts)%nat.
Proof.
  unfold failed. change (stmt :: stmts) with ([stmt] ++ stmts)%list.
  now rewrite cases_app, filter_app, length_app.
Qed.

Lemma recorded_cons (stmt : statement) (stmts : list statement) :
  flat_map failure_of (cases (stmt :: stmts))
  = (flat_map failure_of (cases [stmt]) ++ flat_map failure_of (cases stmts))%list.
Proof.
  change (stmt :: stmts) with ([stmt] ++ stmts)%list.
  now rewrite cases_app, flat_map_app.
Qed.

(** Any number of statements from any state. *)
Lemma exec_all_effect (stmts : list statement) (st : State) :
  passCount (exec_all stmts st) = (passCount st + passed stmts)%nat
  /\ failCount (exec_all stmts st) = (failCount st + failed stmts)%nat
  /\ failures (exec_all stmts st)
     = (failures st ++ flat_map failure_of (cases stmts))%list
  /\ console (exec_all stmts st) = (console st ++ flat_map report stmts)%list.
Proof.
  revert st.
  induction stmts as [|stmt stmts IH]; intro st.
  - unfold passed, failed; simpl.
    rewrite !Nat.add_0_r, !app_nil_r. repeat split; reflexivity.
  - change (exec_all (stmt :: stmts) st) with (exec_all stmts (exec st stmt)).
    destruct (IH (exec st stmt)) as (Hp & Hf & Hl & Hc).
    destruct (exec_effect st stmt) as (Hp1 & Hf1 & Hl1 & Hc1).
    rewrite (passed_cons stmt stmts), (failed_cons stmt stmts),
      (recorded_cons stmt stmts).
    rewrite Hp, Hf, Hl, Hc, Hp1, Hf1, Hl1, Hc1.
    change (flat_map report (stmt :: stmts))
      with (report stmt ++ flat_map report stmts)%list.
    rewrite <- !app_assoc.
    repeat split; lia.
Qed.

Lemma failure_list_effect (fs : list Failure) (st : State) :
  let st' := fold_left
               (fun st f =>
                  console_log ("  - " ++ description f ++ ": " ++ error f) st)
               fs st in
  passCount st' = passCount st /\ failCount st' = failCount st
  /\ failures st' = failures st
  /\ exists tail, console st' = (console st ++ tail)%list.
Proof.
  revert st. induction fs as [|f fs IH]; intro st; simpl.
  - repeat split. exists []. now rewrite app_nil_r.
  - destruct (IH (console_log ("  - " ++ description f ++ ": " ++ error f) st))
      as (Hp & Hf & Hl & tail & Hc).
    simpl in *. rewrite Hp, Hf, Hl. repeat split.
    rewrite Hc, <- app_assoc. eauto.
Qed.

(** The summary prints the two counters after everything printed before,
    keeps the globals, and exits with 1 exactly when a case failed. *)
Lemma summary_effect (st : State) :
  passCount (fst (summary st)) = passCount st
  /\ failCount (fst (summary st)) = failCount st
  /\ failures (fst (summary st)) = failures st
  /\ (exists tail,
        console (fst (summary st)) = (console st ++ tail)%list
        /\ In (Stdout, "✓ Passed: " ++ JsNumber.digits_of_nat (passCount st)) tail
        /\ In (Stdout, "✗ Failed: " ++ JsNumber.digits_of_nat (failCount st)) tail)
  /\ snd (summary st) = (if (0 <? failCount st)%nat then 1 else 0).
Proof.
  unfold summary. simpl.
  destruct (0 <? failCount st)%nat; simpl.
  - match goal with
    | |- context [fold_left ?f ?fs ?s] =>
        destruct (failure_list_effect fs s) as (Hp & Hf & Hl & tail & Hc)
    end.
    simpl in *. rewrite Hp, Hf, Hl, Hc. repeat split.
    rewrite <- !app_assoc. eexists. split; [reflexivity|].
    simpl. auto.
  - repeat split. rewrite <- !app_assoc. eexists. split; [reflexivity|].
    simpl. auto.
Qed.

(** C10. After every completed call of [test] -- that is, in the state
    reached by any sequence of statements from the initial globals --
    [passCount + failCount] is the number of cases executed so far, the
    [failures] list has exactly [failCount] entries, and its entries are
    the (description, error message) pairs of the cases that threw, in
    execution order. *)
Theorem counters_track_executed_cases (stmts : list statement) :
  let st := exec_all stmts initial in
  (passCount st + failCount st = List.length (cases stmts))%nat
  /\ List.length (failures st) = failCount st
  /\ failures st = flat_map failure_of (cases stmts).
Proof.
  destruct (exec_all_effect stmts initial) as (Hp & Hf & Hl & _).
  simpl in *. rewrite Hp, Hf, Hl. repeat split.
  - apply passed_failed_total.
  - apply failures_length.
Qed.

(** C1. A run whose statements register [N] cases, [M] of which throw,
    ends with [passCount = N - M] and [failCount = M] (and prints both);
    every statement, before and after a failing case, has run and written
    its lines, every failing case is recorded in [failures], and the exit
    code is [1] if [M > 0] and [0] otherwise. *)
Theorem run_reports_counts_and_exit_code (stmts : list statement) :
  let N := List.length (cases stmts) in
  let M := failed stmts in
  let final := fst (main stmts) in
  let code := snd (main stmts) in
  passCount final = (N - M)%nat
  /\ failCount final = M
  /\ failures final = flat_map failure_of (cases stmts)
  /\ (exists tail,
        console final = (flat_map report stmts ++ tail)%list
        /\ In (Stdout, "✓ Passed: " ++ JsNumber.digits_of_nat (N - M)) tail
        /\ In (Stdout, "✗ Failed: " ++ JsNumber.digits_of_nat M) tail)
  /\ code = (if (0 <? M)%nat then 1 else 0).
Proof.
  unfold main. cbv zeta.
  destruct (exec_all_effect stmts initial) as (Hp & Hf & Hl & Hc).
  destruct (summary_effect (exec_all stmts initial))
    as (Sp & Sf & Sl & (tail & Sc & In1 & In2) & Se).
  simpl in Hp, Hf, Hl, Hc.
  rewrite Sp, Sf, Sl, Se, Hp, Hf, Hl, <- passed_is_difference.
  repeat split.
  exists tail. rewrite Sc, Hc, Hp, Hf in *. auto.
Qed.

End RunnerFacts.

(** ** Strings and values *)

Section ValueFacts.
Import Js.

Lemma append_assoc (a b c : string) : (a ++ b) ++ c = a ++ (b ++ c).
Proof. induction a as [|x a IH]; simpl; [reflexivity|now rewrite IH]. Qed.

Lemma append_nil_r (a : string) : a ++ "" = a.
Proof. induction a as [|x a IH]; simpl; [reflexivity|now rewrite IH]. Qed.

Lemma startsWith_append (p rest : string) :
  JsString.startsWith (p ++ rest) p = true.
Proof.
  unfold JsString.startsWith.
  induction p as [|x p IH]; simpl.
  - now destruct rest.
  - destruct (ascii_dec x x) as [_|n]; [exact IH|now elim n].
Qed.

Lemma includes_here (s p : string) :
  JsString.startsWith s p = true -> JsString.includes s p = true.
Proof.
  intros H. destruct s as [|c s].
  - change (JsString.startsWith "" p || false = true). now rewrite H.
  - change (JsString.startsWith (String c s) p || JsString.includes s p = true).
    now rewrite H.
Qed.

Lemma includes_later (c : ascii) (s p : string) :
  JsString.includes s p = true -> JsString.includes (String c s) p = true.
Proof.
  intros H.
  change (JsString.startsWith (String c s) p || JsString.includes s p = true).
  rewrite H. apply orb_true_r.
Qed.

Lemma includes_append (before p rest : string) :
  JsString.includes (before ++ p ++ rest) p = true.
Proof.
  induction before as [|x before IH].
  - apply includes_here. exact (startsWith_append p rest).
  - apply includes_later, IH.
Qed.

Lemma includes_suffix (before p : string) :
  JsString.includes (before ++ p) p = true.
Proof. rewrite <- (append_nil_r p) at 1. apply includes_append. Qed.

Lemma mantissa_compare_refl (m : positive) :
  PosDef.Pos.compare_cont Eq m m = Eq.
Proof. exact (Pos.compare_refl m). Qed.

Lemma mantissa_compare_eq (m m' : positive) :
  PosDef.Pos.compare_cont Eq m m' = Eq -> m = m'.
Proof. exact (Pos.compare_eq m m'). Qed.

(** [===] on Numbers holds between a Number and itself unless it is NaN. *)
Lemma number_eqb_refl (x : JsNumber.number) :
  JsNumber.is_nan x = false -> JsNumber.eqb x x = true.
Proof.
  unfold JsNumber.eqb, SFeqb.
  destruct x as [s|s| |s m e]; simpl; try discriminate; intros _.
  - reflexivity.
  - now destruct s.
  - rewrite Z.compare_refl, (mantissa_compare_refl m). now destruct s.
Qed.

(** Numbers that are [===] and finite print the same. *)
Lemma number_eqb_toString (x y : JsNumber.number) :
  JsNumber.eqb x y = true ->
  JsNumber.is_finite x = true -> JsNumber.is_finite y = true ->
  JsNumber.toString x = JsNumber.toString y.
Proof.
  unfold JsNumber.eqb, SFeqb.
  destruct x as [s|s| |s m e], y as [s'|s'| |s' m' e']; simpl;
    try discriminate; try reflexivity.
  - now destruct s'.
  - now destruct s.
  - intros H _ _.
    assert (s = s' /\ e = e' /\ m = m') as (-> & -> & ->); [|reflexivity].
    destruct s, s'; try discriminate;
      destruct (Z.compare_spec e e') as [->| |]; try discriminate;
      destruct (PosDef.Pos.compare_cont Eq m m') eqn:C; try discriminate;
      apply mantissa_compare_eq in C; auto.
Qed.

Lemma strict_equals_refl (a : JsValue) :
  json_serializable a = true -> strict_equals a a = true.
Proof.
  destruct a as [| |b|x|s|r elems|r props]; simpl; try discriminate; intros H.
  - reflexivity.
  - apply eqb_reflx.
  - apply number_eqb_refl. now destruct x.
  - apply String.eqb_refl.
  - apply Nat.eqb_refl.
  - apply Nat.eqb_refl.
Qed.

Lemma stringify_serializable (a : JsValue) :
  json_serializable a = true -> exists s, JSON_stringify a = Some s.
Proof. destruct a as [| |[]| | | |]; simpl; try discriminate; eauto. Qed.

(** Strictly equal values of one heap have the same JSON text. *)
Lemma strict_equals_same_json (a b : JsValue) :
  json_serializable a = true -> json_serializable b = true ->
  coherent a b -> strict_equals a b = true ->
  JSON_stringify a = JSON_stringify b.
Proof.
  intros Ha Hb Hco Heq.
  destruct a as [| |x|x|x|r elems|r props], b as [| |y|y|y|r' elems'|r' props'];
    simpl in Heq; try discriminate; try reflexivity.
  - apply eqb_prop in Heq. now subst.
  - simpl in *. rewrite Ha, Hb. f_equal. now apply number_eqb_toString.
  - apply String.eqb_eq in Heq. now subst.
  - apply Nat.eqb_eq in Heq. subst. now rewrite (Hco r' eq_refl eq_refl).
  - apply Nat.eqb_eq in Heq. subst. now rewrite (Hco r' eq_refl eq_refl).
  - apply Nat.eqb_eq in Heq. subst. now rewrite (Hco r' eq_refl eq_refl).
  - apply Nat.eqb_eq in Heq. subst. now rewrite (Hco r' eq_refl eq_refl).
Qed.

End ValueFacts.

(** ** The pattern matcher against what a pattern matches *)

Section RegExpFacts.
Import RegExp.

Lemma or_try_none {A : Type} (x y : option A) :
  or_try x y = None <-> x = None /\ y = None.
Proof.
  destruct x; simpl; split; try tauto; try discriminate.
Qed.

Lemma matches_shrinks r pos s pos' s' :
  matches r pos s pos' s' -> (String.length s' <= String.length s)%nat.
Proof. induction 1; simpl in *; lia. Qed.

Lemma star_loop_none {A : Type} (r : regex)
  (k : nat -> string -> option A) :
  (forall (k' : nat -> string -> option A) pos s,
     run r pos s k' = None
     <-> forall pos' s', matches r pos s pos' s' -> k' pos' s' = None) ->
  forall n pos s,
    (String.length s <= n)%nat ->
    (star_loop (run r) k n pos s = None
     <-> forall pos' s', matches (Star r) pos s pos' s' -> k pos' s' = None).
Proof.
  intros Hbody. induction n as [|n IH]; intros pos s Hlen.
  - simpl. split.
    + intros Hk pos' s' Hm. inversion Hm; subst; [exact Hk|lia].
    + intros H. apply H. constructor.
  - cbn [star_loop]. rewrite or_try_none, Hbody. split.
    + intros [Hstep Hstop] pos' s' Hm.
      inversion Hm as [| | | | | | |r0 p0 s0 pos1 s1 p2 s2 Hfirst Hlt Hrest| |];
        subst; [exact Hstop|].
      specialize (Hstep pos1 s1 Hfirst).
      apply Nat.ltb_lt in Hlt as Hltb. rewrite Hltb in Hstep.
      apply (IH pos1 s1); [lia|exact Hstep|exact Hrest].
    + intros H. split; [|apply H; constructor].
      intros pos1 s1 Hfirst.
      destruct (String.length s1 <? String.length s)%nat eqn:Hltb;
        [|reflexivity].
      apply Nat.ltb_lt in Hltb.
      apply IH; [lia|]. intros pos' s' Hrest.
      apply H. econstructor; eassumption.
Qed.

(** The matcher fails exactly when the continuation rejects every way the
    pattern can match. *)
Lemma run_none {A : Type} (r : regex) :
  forall (k : nat -> string -> option A) pos s,
    run r pos s k = None
    <-> forall pos' s', matches r pos s pos' s' -> k pos' s' = None.
Proof.
  induction r as [|c|ranges|r1 IH1 r2 IH2|r1 IH1 r2 IH2|r IH| |];
    intros k pos s.
  - simpl. split.
    + intros Hk pos' s' Hm. inversion Hm; subst. exact Hk.
    + intros H. apply H. constructor.
  - destruct s as [|c' s]; simpl.
    + split; [intros _ pos' s' Hm; inversion Hm|reflexivity].
    + destruct (Ascii.eqb c c') eqn:E.
      * apply Ascii.eqb_eq in E. subst c'. split.
        -- intros Hk pos' s' Hm. inversion Hm; subst. exact Hk.
        -- intros H. apply H. constructor.
      * apply Ascii.eqb_neq in E. split; [|reflexivity].
        intros _ pos' s' Hm. inversion Hm; subst. now elim E.
  - destruct s as [|c' s]; simpl.
    + split; [intros _ pos' s' Hm; inversion Hm|reflexivity].
    + destruct (in_ranges ranges c') eqn:E.
      * split.
        -- intros Hk pos' s' Hm. inversion Hm; subst. exact Hk.
        -- intros H. apply H. now constructor.
      * split; [|reflexivity].
        intros _ pos' s' Hm. inversion Hm; subst. congruence.
  - simpl. rewrite IH1. split.
    + intros H pos' s' Hm. inversion Hm; subst.
      eapply IH2; eauto.
    + intros H pos1 s1 Hm1. apply IH2. intros pos2 s2 Hm2.
      apply H. econstructor; eassumption.
  - simpl. rewrite or_try_none, IH1, IH2. split.
    + intros [Hl Hr] pos' s' Hm. inversion Hm; subst; auto.
    + intros H. split; intros pos' s' Hm; apply H;
        [now apply matches_alt_left|now apply matches_alt_right].
  - simpl. apply star_loop_none; [exact IH|lia].
  - simpl. destruct (pos =? 0)%nat eqn:E.
    + apply Nat.eqb_eq in E. subst pos. split.
      * intros Hk pos' s' Hm. inversion Hm; subst. exact Hk.
      * intros H. apply H. constructor.
    + apply Nat.eqb_neq in E. split; [|reflexivity].
      intros _ pos' s' Hm. inversion Hm; subst. now elim E.
  - destruct s as [|c' s]; simpl.
    + split.
      * intros Hk pos' s' Hm. inversion Hm; subst. exact Hk.
      * intros H. apply H. constructor.
    + split; [|reflexivity]. intros _ pos' s' Hm. inversion Hm.
Qed.

Lemma search_none (r : regex) (s : string) :
  forall pos,
    search r pos s = None
    <-> forall before rest pos' after,
          s = before ++ rest ->
          ~ matches r (pos + String.length before) rest pos' after.
Proof.
  induction s as [|c s IH]; intro pos.
  - simpl. rewrite or_try_none, run_none. split.
    + intros [H _] before rest pos' after Hs Hm.
      destruct before; [|discriminate]. simpl in Hs. subst rest.
      simpl in Hm. rewrite Nat.add_0_r in Hm.
      discriminate (H _ _ Hm).
    + intros H. split; [|reflexivity].
      intros pos' s' Hm. elim (H "" "" pos' s' eq_refl).
      simpl. now rewrite Nat.add_0_r.
  - cbn [search]. rewrite or_try_none, run_none, IH. split.
    + intros [Hhere Hlater] before rest pos' after Hs Hm.
      destruct before as [|c' before]; simpl in Hs.
      * subst rest. simpl in Hm. rewrite Nat.add_0_r in Hm.
        discriminate (Hhere _ _ Hm).
      * injection Hs as -> ->.
        apply (Hlater before rest pos' after eq_refl).
        simpl in Hm. now rewrite Nat.add_succ_r in Hm.
    + intros H. split.
      * intros pos' s' Hm. elim (H "" (String c s) pos' s' eq_refl).
        simpl. now rewrite Nat.add_0_r.
      * intros before rest pos' after -> Hm.
        apply (H (String c before) rest pos' after eq_refl).
        simpl. now rewrite Nat.add_succ_r.
Qed.

(** [exec] finds nothing exactly when the pattern matches nowhere. *)
Lemma exec_none (re : RegExp) (s : string) :
  exec re s = None <-> ~ found re s.
Proof.
  unfold exec, found. rewrite search_none. split.
  - intros H (before & rest & pos' & after & Hs & Hm).
    exact (H before rest pos' after Hs Hm).
  - intros H before rest pos' after Hs Hm.
    apply H. exists before, rest, pos', after. now split.
Qed.

End RegExpFacts.

(** ** The matchers *)

Section MatcherFacts.
Import Js.

(** C3. For JSON-serializable [a] and [b]: [expect(a).toBe(a)] does not
    throw; when [b] is not the value [a] (they are not [===]),
    [expect(a).toBe(b)] throws an [Error] whose message contains the
    JSON text of [a] and the JSON text of [b].  Values of one heap whose
    JSON texts differ are never [===], so the second part applies to
    them. *)
Theorem toBe_same_passes_different_throws (a b : JsValue) :
  json_serializable a = true ->
  json_serializable b = true ->
  Expect.toBe a a = Normal tt
  /\ (strict_equals a b = false ->
      exists sa sb msg,
        JSON_stringify a = Some sa /\ JSON_stringify b = Some sb
        /\ Expect.toBe a b = Throw (Error msg)
        /\ JsString.includes msg sa = true
        /\ JsString.includes msg sb = true)
  /\ (coherent a b -> JSON_stringify a <> JSON_stringify b ->
      strict_equals a b = false).
Proof.
  intros Ha Hb. split; [|split].
  - unfold Expect.toBe. now rewrite strict_equals_refl.
  - intros Hne.
    destruct (stringify_serializable a Ha) as [sa Ea].
    destruct (stringify_serializable b Hb) as [sb Eb].
    exists sa, sb. eexists. unfold Expect.toBe, Expect.fail, show_json.
    rewrite Hne, Ea, Eb. simpl negb. cbv iota.
    repeat split.
    + rewrite <- append_assoc, <- append_assoc. apply includes_suffix.
    + apply includes_append.
  - intros Hco Hjson.
    destruct (strict_equals a b) eqn:E; [|reflexivity].
    elim Hjson. now apply strict_equals_same_json.
Qed.

Lemma toBe_number_against_string :
  Expect.toBe (Checks.num 1) (Checks.num 1) = Normal tt
  /\ exists sa sb msg,
       JSON_stringify (Checks.num 1) = Some sa
       /\ JSON_stringify (JStr "x") = Some sb
       /\ Expect.toBe (Checks.num 1) (JStr "x") = Throw (Error msg)
       /\ JsString.includes msg sa = true
       /\ JsString.includes msg sb = true.
Proof.
  destruct (toBe_same_passes_different_throws (Checks.num 1) (JStr "x")
              eq_refl eq_refl) as (Hsame & Hdiff & _).
  split; [exact Hsame|exact (Hdiff eq_refl)].
Defined.

(** C4. [expect({k: 1}).toHaveProperty("k")] does not throw;
    [expect({}).toHaveProperty("k")], [expect(null).toHaveProperty("k")]
    and [expect(undefined).toHaveProperty("k")] throw.  In general, for a
    wrapped object or nullish value, [toHaveProperty(k)] throws exactly
    when the value is nullish or [k in value] is false (the object has the
    key neither as its own nor through its prototype). *)
Theorem toHaveProperty_throws_iff_nullish_or_lacking :
  (forall r, Expect.toHaveProperty (JObj r [("k", Checks.num 1)]) "k" = Normal tt)
  /\ (forall r, throws (Expect.toHaveProperty (JObj r []) "k") = true)
  /\ throws (Expect.toHaveProperty JNull "k") = true
  /\ throws (Expect.toHaveProperty JUndefined "k") = true
  /\ (forall v k,
        is_object v || is_nullish v = true ->
        (throws (Expect.toHaveProperty v k) = true
         <-> is_nullish v = true \/ has_property v k = Normal false)).
Proof.
  repeat split; try reflexivity.
  - intros Hthrow.
    destruct v as [| |b|x|s|r elems|r props]; simpl in *; try discriminate; auto;
      right; unfold Expect.toHaveProperty in Hthrow; simpl in Hthrow;
      match goal with
      | |- Normal ?c = _ => destruct c; [discriminate|reflexivity]
      end.
  - intros [Hnull|Hlack];
      destruct v as [| |b|x|s|r elems|r props]; simpl in *; try discriminate;
        try reflexivity;
        unfold Expect.toHaveProperty; simpl;
        injection Hlack as ->; reflexivity.
Qed.

Lemma toHaveProperty_empty_object_lacks_k :
  throws (Expect.toHaveProperty (JObj 0 []) "k") = true.
Proof.
  destruct toHaveProperty_throws_iff_nullish_or_lacking
    as (_ & _ & _ & _ & Hgen).
  apply (Hgen (JObj 0 []) "k"); [reflexivity|].
  right. reflexivity.
Defined.

(** An object without the key among its own properties throws exactly
    when [Object.prototype] does not supply it either. *)
Lemma toHaveProperty_plain_object (r : nat) (props : list (string * JsValue))
  (k : string) :
  mem k Object_prototype_keys = false ->
  throws (Expect.toHaveProperty (JObj r props) k) = negb (has_own props k).
Proof.
  intros H. unfold Expect.toHaveProperty, has_property.
  cbn [ToBoolean negb bind]. rewrite H, orb_false_r.
  now destruct (has_own props k).
Qed.

(** C8. For every falsy wrapped value and every key [k],
    [expect(value).toHaveProperty(k)] throws the matcher's error; [0], the
    empty string and [false] are falsy without being nullish, and the
    empty string throws for ["length"], a key its boxed form owns. *)
Theorem toHaveProperty_throws_on_falsy :
  (forall v k,
     ToBoolean v = false ->
     Expect.toHaveProperty v k
     = Throw (Error ("Expected object to have property " ++ k)))
  /\ (forall v, In v [Checks.num 0; JStr ""; JBool false] ->
        ToBoolean v = false /\ is_nullish v = false)
  /\ throws (Expect.toHaveProperty (JStr "") "length") = true.
Proof.
  split; [|split].
  - intros v k H. unfold Expect.toHaveProperty. now rewrite H.
  - intros v [<-|[<-|[<-|[]]]]; split; reflexivity.
  - reflexivity.
Qed.

Lemma toHaveProperty_empty_string_length :
  Expect.toHaveProperty (JStr "") "length"
  = Throw (Error "Expected object to have property length").
Proof.
  destruct toHaveProperty_throws_on_falsy as (Hfalsy & _).
  apply (Hfalsy (JStr "") "length"). reflexivity.
Defined.

Lemma search_char_cons (x c : ascii) (s : string) (pos : nat) :
  RegExp.search (RegExp.Char x) pos (String c s)
  = RegExp.or_try (if Ascii.eqb x c then Some (pos, S pos) else None)
      (RegExp.search (RegExp.Char x) (S pos) s).
Proof. reflexivity. Qed.

Lemma startsWith_char (x c : ascii) (s : string) :
  JsString.startsWith (String c s) (String x "") = Ascii.eqb x c.
Proof.
  unfold JsString.startsWith. cbn [String.prefix].
  destruct (ascii_dec x c) as [->|n].
  - rewrite Ascii.eqb_refl. now destruct s.
  - apply Ascii.eqb_neq in n. now rewrite n.
Qed.

Lemma search_literal_x (s : string) (pos : nat) :
  RegExp.search (RegExp.Char "x") pos s = None
  <-> JsString.includes s "x" = false.
Proof.
  revert pos. induction s as [|c s IH]; intro pos.
  - simpl. tauto.
  - change (JsString.includes (String c s) "x")
      with (JsString.startsWith (String c s) "x" || JsString.includes s "x").
    rewrite search_char_cons, startsWith_char.
    destruct (Ascii.eqb "x" c); cbn [RegExp.or_try orb].
    + split; discriminate.
    + apply IH.
Qed.

(** C5. [expect("x").toMatch(/x/)] does not throw; [expect("y").toMatch(/x/)]
    throws an [Error] whose message contains the JSON text of the value
    and the pattern; for every string and pattern, [toMatch] throws exactly
    when the pattern matches nowhere in the string, and the message is then
    [Expected <JSON of the string> to match /<source>/]. *)
Theorem toMatch_throws_iff_no_match :
  Expect.toMatch (JStr "x") RegExp.literal_x = Normal tt
  /\ (exists msg,
        Expect.toMatch (JStr "y") RegExp.literal_x = Throw (Error msg)
        /\ JsString.includes msg (show_json (JStr "y")) = true
        /\ JsString.includes msg "/x/" = true)
  /\ (forall s re,
        (throws (Expect.toMatch (JStr s) re) = true <-> ~ RegExp.found re s)
        /\ (~ RegExp.found re s ->
            Expect.toMatch (JStr s) re
            = Throw (Error ("Expected " ++ QuoteJSONString s ++ " to match "
                            ++ "/" ++ RegExp.source re ++ "/")))).
Proof.
  split; [reflexivity|split].
  - eexists. split; [reflexivity|]. split; reflexivity.
  - intros s re. rewrite <- exec_none.
    unfold Expect.toMatch, RegExp.test. simpl.
    destruct (RegExp.exec re s) as [span|]; simpl.
    + repeat split; discriminate.
    + repeat split.
Qed.

Lemma toMatch_y_against_x :
  Expect.toMatch (JStr "y") RegExp.literal_x
  = Throw (Error ("Expected " ++ QuoteJSONString "y" ++ " to match /x/")).
Proof.
  destruct toMatch_throws_iff_no_match as (_ & _ & Hgen).
  apply (Hgen "y" RegExp.literal_x).
  apply exec_none. reflexivity.
Defined.

(** [/x/] finds a match in a string exactly when the string contains an
    [x]. *)
Lemma toMatch_literal_x (s : string) :
  throws (Expect.toMatch (JStr s) RegExp.literal_x)
  = negb (JsString.includes s "x").
Proof.
  unfold Expect.toMatch, RegExp.test, RegExp.exec. simpl bind.
  pose proof (search_literal_x s 0) as H. simpl RegExp.pattern.
  destruct (RegExp.search (RegExp.Char "x") 0 s) as [span|];
    destruct (JsString.includes s "x"); try reflexivity.
  - destruct H as [_ H]. discriminate (H eq_refl).
  - destruct H as [H _]. discriminate (H eq_refl).
Qed.

(** C9, as the code has it.  [expect(actual).not.toContain(item)] does not
    throw when [actual] is falsy.  When it throws, [actual] is truthy and
    either [actual.includes(item)] holds or the call [actual.includes(item)]
    itself threw that error (the [TypeError] of a truthy value without an
    [includes] method). *)
Theorem not_toContain_throws_only_when_truthy (actual item : JsValue) :
  (ToBoolean actual = false -> Expect.Not.toContain actual item = Normal tt)
  /\ (forall e,
        Expect.Not.toContain actual item = Throw e ->
        ToBoolean actual = true
        /\ (Expect.Not.includes actual item = Normal true
            \/ Expect.Not.includes actual item = Throw e)).
Proof.
  unfold Expect.Not.toContain. split.
  - intros ->. reflexivity.
  - intros e. destruct (ToBoolean actual); [|discriminate].
    destruct (Expect.Not.includes actual item) as [[|]|e']; simpl.
    + auto.
    + discriminate.
    + intros [= ->]. auto.
Qed.

Lemma not_toContain_null_and_member :
  Expect.Not.toContain JNull (Checks.num 1) = Normal tt
  /\ ToBoolean (JArr 0 [Checks.num 1]) = true
  /\ (Expect.Not.includes (JArr 0 [Checks.num 1]) (Checks.num 1) = Normal true
      \/ Expect.Not.includes (JArr 0 [Checks.num 1]) (Checks.num 1)
         = Throw (Error "Expected array not to contain 1")).
Proof.
  split.
  - apply (not_toContain_throws_only_when_truthy JNull (Checks.num 1)).
    reflexivity.
  - apply (not_toContain_throws_only_when_truthy (JArr 0 [Checks.num 1])
             (Checks.num 1)).
    reflexivity.
Defined.

(** For an array or a string, the assertion fails exactly on containment
    (as long as [item] can be printed in the message). *)
Lemma not_toContain_array (r : nat) (elems : list JsValue) (item : JsValue) :
  throws (Expect.Not.toContain (JArr r elems) item)
  = existsb (same_value_zero item) elems.
Proof.
  unfold Expect.Not.toContain. simpl.
  destruct (existsb (same_value_zero item) elems); [|reflexivity].
  now destruct (ToString item).
Qed.

(** C9, as stated, fails: the number [5] is truthy, [(5).includes] is not
    a function, and the matcher throws although no containment holds. *)
Lemma not_toContain_throws_without_containment :
  Expect.Not.toContain (Checks.num 5) (Checks.num 1)
  = Throw (TypeError "actual.includes is not a function")
  /\ Expect.Not.includes (Checks.num 5) (Checks.num 1) <> Normal true
  /\ ~ (forall actual item : JsValue,
          throws (Expect.Not.toContain actual item) = true ->
          ToBoolean actual = true
          /\ Expect.Not.includes actual item = Normal true).
Proof.
  split; [reflexivity|split].
  - discriminate.
  - intros H.
    destruct (H (Checks.num 5) (Checks.num 1) eq_refl) as [_ Hinc].
    discriminate Hinc.
Qed.

End MatcherFacts.

(** ** The manifest checks *)

Section CheckFacts.
Import Js Checks.

(** The version text is cleaned and split as the checks expect. *)
Example clean_version_15_5_10 :
  call_replace (JStr "^15.5.10") range_prefix "" = Normal "15.5.10"
  /\ call_replace (JStr "~15.5.10") range_prefix "" = Normal "15.5.10"
  /\ call_replace (JStr "15.5.10") range_prefix "" = Normal "15.5.10"
  /\ version_numbers "15.5.10" = Normal [num 15; num 5; num 10]
  /\ version_numbers "15.4.0" = Normal [num 15; num 4; num 0].
Proof. repeat split; reflexivity. Qed.

(** C2. For a manifest whose [dependencies] map has ["next": "^15.5.10"],
    the Next.js vulnerability check passes, in both of its forms (the
    nested [toBeGreaterThanOrEqual] assertions and the [isVulnerable]
    flag); for ["next": "^15.4.0"] both forms throw. *)
Theorem next_version_check (packageJson dependencies : JsValue)
  (version : string) :
  get packageJson "dependencies" = Normal dependencies ->
  get dependencies "next" = Normal (JStr version) ->
  (version = "^15.5.10" ->
   uses_fixed_next packageJson = Normal tt
   /\ not_vulnerable_next packageJson = Normal tt)
  /\ (version = "^15.4.0" ->
      throws (uses_fixed_next packageJson) = true
      /\ throws (not_vulnerable_next packageJson) = true).
Proof.
  intros Hdeps Hnext.
  unfold uses_fixed_next, not_vulnerable_next.
  rewrite Hdeps. cbn [bind]. rewrite Hnext. cbn [bind].
  split; intros ->; split; vm_compute; reflexivity.
Qed.

Lemma next_version_check_scenarios :
  (uses_fixed_next (scenario [("next", JStr "^15.5.10")] []) = Normal tt
   /\ not_vulnerable_next (scenario [("next", JStr "^15.5.10")] []) = Normal tt)
  /\ (throws (uses_fixed_next (scenario [("next", JStr "^15.4.0")] [])) = true
      /\ throws (not_vulnerable_next (scenario [("next", JStr "^15.4.0")] []))
         = true).
Proof.
  split.
  - apply (next_version_check (scenario [("next", JStr "^15.5.10")] [])
             (JObj 1 [("next", JStr "^15.5.10")]) "^15.5.10");
      reflexivity.
  - apply (next_version_check (scenario [("next", JStr "^15.4.0")] [])
             (JObj 1 [("next", JStr "^15.4.0")]) "^15.4.0");
      reflexivity.
Defined.

(** C6. For a manifest whose [dependencies] give the version strings of
    [react] and [react-dom]: the consistency check passes when the two
    strings are identical and throws when they are not, as with
    ["18.2.0"] and ["18.1.0"]. *)
Theorem react_version_consistency (packageJson dependencies : JsValue)
  (react reactDom : string) :
  get packageJson "dependencies" = Normal dependencies ->
  get dependencies "react" = Normal (JStr react) ->
  get dependencies "react-dom" = Normal (JStr reactDom) ->
  (react = reactDom -> consistent_react packageJson = Normal tt)
  /\ (react <> reactDom -> throws (consistent_react packageJson) = true)
  /\ (react = "18.2.0" -> reactDom = "18.1.0" ->
      throws (consistent_react packageJson) = true).
Proof.
  intros Hdeps Hreact Hdom.
  unfold consistent_react.
  rewrite Hdeps. cbn [bind]. rewrite Hreact, Hdom. cbn [bind].
  unfold Expect.toBe. cbn [strict_equals].
  split; [|split].
  - intros ->. now rewrite String.eqb_refl.
  - intros Hne. apply String.eqb_neq in Hne. now rewrite Hne.
  - intros -> ->. reflexivity.
Qed.

Lemma react_version_consistency_scenarios :
  throws (consistent_react
            (scenario [("react", JStr "18.2.0"); ("react-dom", JStr "18.1.0")] []))
  = true
  /\ consistent_react
       (scenario [("react", JStr "18.2.0"); ("react-dom", JStr "18.2.0")] [])
     = Normal tt.
Proof.
  split.
  - apply (react_version_consistency
             (scenario [("react", JStr "18.2.0"); ("react-dom", JStr "18.1.0")] [])
             (JObj 1 [("react", JStr "18.2.0"); ("react-dom", JStr "18.1.0")])
             "18.2.0" "18.1.0");
      reflexivity.
  - apply (react_version_consistency
             (scenario [("react", JStr "18.2.0"); ("react-dom", JStr "18.2.0")] [])
             (JObj 1 [("react", JStr "18.2.0"); ("react-dom", JStr "18.2.0")])
             "18.2.0" "18.2.0");
      reflexivity.
Defined.

Lemma mem_keys (props : list (string * JsValue)) (k : string) :
  mem k (map fst props) = has_own props k.
Proof.
  unfold mem, has_own.
  induction props as [|[k' v] props IH]; simpl; [reflexivity|].
  now rewrite IH, String.eqb_sym.
Qed.

Lemma has_own_In (props : list (string * JsValue)) (k : string) :
  has_own props k = true <-> In k (map fst props).
Proof.
  rewrite <- mem_keys. unfold mem. rewrite existsb_exists. split.
  - intros (x & Hin & Heq). apply String.eqb_eq in Heq. now subst.
  - intros Hin. exists k. split; [exact Hin|apply String.eqb_refl].
Qed.

(** An array of strings has the JSON text of [[]] only when it is
    empty. *)
Lemma toEqual_empty_array (r r' : nat) (l : list string) :
  Expect.toEqual (JArr r (map JStr l)) (JArr r' [])
  = match l with
    | [] => Normal tt
    | _ :: _ =>
        Throw (Error ("Expected [], but got "
                      ++ show_json (JArr r (map JStr l))))
    end.
Proof.
  destruct l as [|x l]; [reflexivity|].
  unfold Expect.toEqual, Expect.fail.
  replace (option_string_eqb (JSON_stringify (JArr r (map JStr (x :: l))))
             (JSON_stringify (JArr r' []))) with false; [reflexivity|].
  cbn [JSON_stringify map]. destruct (map JStr l); reflexivity.
Qed.

(** Without a [dependencies] map there is nothing to duplicate: the
    [|| {}] default stands in for it. *)
Lemma no_duplicate_dependencies_absent (packageJson devDependencies : JsValue) :
  get packageJson "dependencies" = Normal JUndefined ->
  get packageJson "devDependencies" = Normal devDependencies ->
  no_duplicate_dependencies packageJson = Normal tt.
Proof.
  intros Hdeps Hdev. unfold no_duplicate_dependencies.
  rewrite Hdeps. cbn [bind or_else ToBoolean Object_keys map].
  rewrite Hdev. cbn [bind]. unfold or_else.
  destruct devDependencies as [| |b|x|s|r elems|r props]; simpl;
    try reflexivity;
    match goal with
    | |- context [if ?c then _ else _] => destruct c; reflexivity
    end.
Qed.

(** C7. For a manifest whose [dependencies] and [devDependencies] are
    maps: the duplicate-dependency check throws exactly when some key is
    in both maps, and passes when no key is. *)
Theorem duplicate_dependency_check (packageJson : JsValue) (r1 r2 : nat)
  (deps devDeps : list (string * JsValue)) :
  get packageJson "dependencies" = Normal (JObj r1 deps) ->
  get packageJson "devDependencies" = Normal (JObj r2 devDeps) ->
  (throws (no_duplicate_dependencies packageJson) = true
   <-> exists k, has_own deps k = true /\ has_own devDeps k = true)
  /\ ((forall k, has_own deps k = true -> has_own devDeps k = false) ->
      no_duplicate_dependencies packageJson = Normal tt).
Proof.
  intros Hdeps Hdev.
  unfold no_duplicate_dependencies.
  rewrite Hdeps. cbn [bind or_else ToBoolean Object_keys].
  rewrite Hdev. cbn [bind or_else ToBoolean Object_keys].
  rewrite toEqual_empty_array.
  set (duplicates := filter _ _).
  assert (Hdup : forall k, In k duplicates
                           <-> has_own deps k = true /\ has_own devDeps k = true).
  { intros k. unfold duplicates.
    rewrite filter_In, mem_keys, <- has_own_In. tauto. }
  clearbody duplicates. split.
  - destruct duplicates as [|k ks]; simpl; split.
    + discriminate.
    + intros (k & Hk). apply Hdup in Hk. destruct Hk.
    + intros _. exists k. apply Hdup. now left.
    + reflexivity.
  - intros Hdisjoint. destruct duplicates as [|k ks]; [reflexivity|].
    destruct (proj1 (Hdup k) (or_introl eq_refl)) as [H1 H2].
    rewrite (Hdisjoint k H1) in H2. discriminate.
Qed.

Lemma duplicate_dependency_check_scenarios :
  throws (no_duplicate_dependencies
            (scenario [("next", JStr "^15.5.10"); ("jest", JStr "^29.0.0")]
                      [("jest", JStr "^29.0.0")]))
  = true
  /\ no_duplicate_dependencies
       (scenario [("next", JStr "^15.5.10")] [("jest", JStr "^29.0.0")])
     = Normal tt.
Proof.
  split.
  - apply (duplicate_dependency_check
             (scenario [("next", JStr "^15.5.10"); ("jest", JStr "^29.0.0")]
                       [("jest", JStr "^29.0.0")])
             1 2 [("next", JStr "^15.5.10"); ("jest", JStr "^29.0.0")]
             [("jest", JStr "^29.0.0")]);
      [reflexivity|reflexivity|].
    exists "jest". split; reflexivity.
  - apply (duplicate_dependency_check
             (scenario [("next", JStr "^15.5.10")] [("jest", JStr "^29.0.0")])
             1 2 [("next", JStr "^15.5.10")] [("jest", JStr "^29.0.0")]);
      [reflexivity|reflexivity|].
    intros k. unfold has_own. cbn [existsb fst]. rewrite !orb_false_r.
    intros E. apply String.eqb_eq in E. subst k. reflexivity.
Defined.

End CheckFacts.

(** ** More on the matchers *)

Section MatcherLaws.
Import Js JsonText.

Lemma stringify_array (r : nat) (elems : list JsValue) :
  JSON_stringify (JArr r elems)
  = Some ("[" ++ JsString.join "," (map item_text elems) ++ "]").
Proof.
  reflexivity.
Qed.

Lemma stringify_object (r : nat) (props : list (string * JsValue)) :
  JSON_stringify (JObj r props)
  = Some ("{" ++ JsString.join "," (member_texts props) ++ "}").
Proof.
  reflexivity.
Qed.

Lemma number_eqb_text (x y : JsNumber.number) :
  JsNumber.eqb x y = true ->
  JSON_stringify (JNum x) = JSON_stringify (JNum y).
Proof.
  unfold JsNumber.eqb, SFeqb.
  destruct x as [s|s| |s m e], y as [s'|s'| |s' m' e']; simpl;
    try discriminate; try reflexivity;
    try (destruct s; discriminate); try (destruct s'; discriminate).
  intros H.
  assert (s = s' /\ e = e' /\ m = m') as (-> & -> & ->); [|reflexivity].
  destruct s, s'; try discriminate;
    destruct (Z.compare_spec e e') as [->| |]; try discriminate;
    destruct (PosDef.Pos.compare_cont Eq m m') eqn:C; try discriminate;
    apply mantissa_compare_eq in C; auto.
Qed.

(** X1. [toBe] is the stronger matcher: whatever passes [toBe] passes
    [toEqual] (the two values being taken from one heap). *)
Theorem toBe_implies_toEqual (a b : JsValue) :
  coherent a b ->
  Expect.toBe a b = Normal tt ->
  Expect.toEqual a b = Normal tt.
Proof.
  intros Hco. unfold Expect.toBe, Expect.toEqual.
  destruct (strict_equals a b) eqn:Heq; [intros _|discriminate].
  assert (Hjson : JSON_stringify a = JSON_stringify b).
  { destruct a as [| |x|x|x|r elems|r props],
             b as [| |y|y|y|r' elems'|r' props'];
      simpl in Heq; try discriminate; try reflexivity.
    - apply eqb_prop in Heq. now subst.
    - now apply number_eqb_text.
    - apply String.eqb_eq in Heq. now subst.
    - apply Nat.eqb_eq in Heq. subst. now rewrite (Hco r' eq_refl eq_refl).
    - apply Nat.eqb_eq in Heq. subst. now rewrite (Hco r' eq_refl eq_refl).
    - apply Nat.eqb_eq in Heq. subst. now rewrite (Hco r' eq_refl eq_refl).
    - apply Nat.eqb_eq in Heq. subst. now rewrite (Hco r' eq_refl eq_refl). }
  rewrite Hjson.
  destruct (JSON_stringify b) as [t|]; simpl; [now rewrite String.eqb_refl|].
  reflexivity.
Qed.

Lemma toBe_implies_toEqual_same_object :
  Expect.toEqual (JObj 7 [("k", Checks.num 1)]) (JObj 7 [("k", Checks.num 1)])
  = Normal tt.
Proof.
  apply toBe_implies_toEqual.
  - intros r _ _. reflexivity.
  - reflexivity.
Defined.

Lemma member_texts_app (xs ys : list (string * JsValue)) :
  member_texts (xs ++ ys) = (member_texts xs ++ member_texts ys)%list.
Proof.
  induction xs as [|[k e] xs IH]; [reflexivity|].
  cbn [member_texts app]. rewrite IH.
  now destruct (JSON_stringify e).
Qed.

Lemma toEqual_same_text (a b : JsValue) :
  JSON_stringify a = JSON_stringify b -> Expect.toEqual a b = Normal tt.
Proof.
  intros H. unfold Expect.toEqual. rewrite H.
  destruct (JSON_stringify b); simpl; [now rewrite String.eqb_refl|].
  reflexivity.
Qed.

(** X2. What [toEqual] cannot see: it passes between any two distinct objects
    with the same members, between a non-finite number and [null],
    between an object and the same object with one more member whose value
    is [undefined], and between arrays that differ by [undefined] against
    [null]. *)
Theorem toEqual_blind_spots :
  (forall r r' props, Expect.toEqual (JObj r props) (JObj r' props) = Normal tt)
  /\ (forall x, JsNumber.is_finite x = false ->
                Expect.toEqual (JNum x) JNull = Normal tt)
  /\ (forall r r' before k after,
        Expect.toEqual (JObj r (before ++ (k, JUndefined) :: after))
          (JObj r' (before ++ after)) = Normal tt)
  /\ (forall r r' before after,
        Expect.toEqual (JArr r (before ++ JUndefined :: after))
          (JArr r' (before ++ JNull :: after)) = Normal tt).
Proof.
  repeat split.
  - intros r r' props. apply toEqual_same_text.
    now rewrite !stringify_object.
  - intros x Hx. apply toEqual_same_text. simpl. now rewrite Hx.
  - intros r r' before k after. apply toEqual_same_text.
    rewrite !stringify_object, !member_texts_app. reflexivity.
  - intros r r' before after. apply toEqual_same_text.
    rewrite !stringify_array, !map_app. reflexivity.
Qed.

Lemma toEqual_blind_to_NaN :
  Expect.toEqual (JNum JsNumber.NaN) JNull = Normal tt.
Proof.
  destruct toEqual_blind_spots as (_ & Hnum & _).
  apply Hnum. reflexivity.
Defined.

(** X3. The negated matchers invert their counterparts: of [toBe] and
    [not.toBe] exactly one throws; of [toMatch] and [not.toMatch] exactly
    one throws whenever the wrapped value can be converted to a string (and
    both throw otherwise); [not.toBeUndefined] throws exactly when
    [toBeDefined] does. *)
Theorem negated_matchers_invert :
  (forall actual expected,
     throws (Expect.Not.toBe actual expected)
     = negb (throws (Expect.toBe actual expected)))
  /\ (forall actual re,
        match ToString actual with
        | Normal _ =>
            throws (Expect.Not.toMatch actual re)
            = negb (throws (Expect.toMatch actual re))
        | Throw e =>
            Expect.Not.toMatch actual re = Throw e
            /\ Expect.toMatch actual re = Throw e
        end)
  /\ (forall actual,
        throws (Expect.Not.toBeUndefined actual)
        = throws (Expect.toBeDefined actual)).
Proof.
  repeat split.
  - intros actual expected. unfold Expect.Not.toBe, Expect.toBe.
    now destruct (strict_equals actual expected).
  - intros actual re.
    unfold Expect.Not.toMatch, Expect.toMatch, RegExp.test.
    destruct (ToString actual) as [s|e]; simpl; [|split; reflexivity].
    now destruct (RegExp.exec re s).
  - intros actual. unfold Expect.Not.toBeUndefined, Expect.toBeDefined.
    now destruct (strict_equals actual JUndefined).
Qed.

Lemma negated_toMatch_on_string :
  throws (Expect.Not.toMatch (JStr "y") RegExp.literal_x)
  = negb (throws (Expect.toMatch (JStr "y") RegExp.literal_x)).
Proof.
  destruct negated_matchers_invert as (_ & Hmatch & _).
  exact (Hmatch (JStr "y") RegExp.literal_x).
Defined.

Lemma string_ltb_asym (s t : string) :
  JsString.ltb s t = true -> JsString.ltb t s = false.
Proof.
  revert t. induction s as [|a s IH]; intros [|b t]; simpl; try discriminate;
    try reflexivity.
  intros H. apply orb_true_iff in H. apply orb_false_iff.
  destruct H as [H|H].
  - apply Nat.ltb_lt in H. split.
    + apply Nat.ltb_ge. lia.
    + replace (Ascii.eqb b a) with false; [reflexivity|].
      symmetry. apply Ascii.eqb_neq. intros ->. lia.
  - apply andb_true_iff in H. destruct H as [Hab Hst].
    apply Ascii.eqb_eq in Hab. subst b. split.
    + apply Nat.ltb_irrefl.
    + rewrite (IH t Hst). apply andb_false_r.
Qed.

Lemma number_not_leb_not_ltb (x y : JsNumber.number) :
  JsNumber.leb x y = false -> JsNumber.ltb x y = false.
Proof.
  unfold JsNumber.leb, JsNumber.ltb, SFleb, SFltb.
  now destruct (SFcompare x y) as [[| |]|].
Qed.

Lemma not_le_not_lt (px py : JsValue) :
  le_prim px py = false -> lt_prim px py = false.
Proof.
  unfold le_prim, lt_prim. intros H.
  destruct px, py; try (now apply number_not_leb_not_ltb).
  apply negb_false_iff in H. now apply string_ltb_asym.
Qed.

(** X4. Whatever passes [toBeGreaterThan] passes [toBeGreaterThanOrEqual],
    for operands of any type. *)
Theorem toBeGreaterThan_implies_orEqual (actual expected : JsValue) :
  Expect.toBeGreaterThan actual expected = Normal tt ->
  Expect.toBeGreaterThanOrEqual actual expected = Normal tt.
Proof.
  unfold Expect.toBeGreaterThan, Expect.toBeGreaterThanOrEqual, js_le, js_lt.
  destruct (ToPrimitive actual) as [px|e]; [|discriminate].
  destruct (ToPrimitive expected) as [py|e]; [|discriminate].
  cbn [bind].
  destruct (le_prim px py) eqn:Hle.
  - destruct (ToString actual); [|discriminate].
    destruct (ToString expected); discriminate.
  - intros _. now rewrite (not_le_not_lt px py Hle).
Qed.

Lemma toBeGreaterThan_implies_orEqual_16_15 :
  Expect.toBeGreaterThanOrEqual (Checks.num 16) (Checks.num 15) = Normal tt.
Proof.
  apply toBeGreaterThan_implies_orEqual. reflexivity.
Defined.

(** X5. A wrapped primitive whose numeric value is NaN -- [undefined], [NaN], a
    string that is not a numeric literal -- passes both ordering matchers
    against every number: every comparison with NaN is false, so neither
    matcher finds the violation it looks for. *)
Theorem ordering_matchers_pass_on_NaN (actual : JsValue)
  (expected : JsNumber.number) :
  is_object actual = false ->
  JsNumber.is_nan (ToNumber_prim actual) = true ->
  Expect.toBeGreaterThan actual (JNum expected) = Normal tt
  /\ Expect.toBeGreaterThanOrEqual actual (JNum expected) = Normal tt.
Proof.
  intros Hprim Hnan.
  unfold Expect.toBeGreaterThan, Expect.toBeGreaterThanOrEqual, js_le, js_lt.
  assert (Hp : ToPrimitive actual = Normal actual)
    by (destruct actual; try reflexivity; discriminate).
  rewrite Hp. cbn [bind ToPrimitive].
  assert (Hle : le_prim actual (JNum expected) = false
                /\ lt_prim actual (JNum expected) = false).
  { unfold le_prim, lt_prim, JsNumber.leb, JsNumber.ltb, SFleb, SFltb.
    cbn [ToNumber_prim].
    destruct (ToNumber_prim actual); try discriminate.
    destruct actual; split; reflexivity. }
  destruct Hle as [-> ->]. split; reflexivity.
Qed.

Lemma ordering_matchers_pass_on_undefined :
  Expect.toBeGreaterThan JUndefined (Checks.num 5) = Normal tt
  /\ Expect.toBeGreaterThanOrEqual JUndefined (Checks.num 5) = Normal tt.
Proof.
  apply ordering_matchers_pass_on_NaN; reflexivity.
Defined.

Lemma same_value_zero_refl (v : JsValue) : same_value_zero v v = true.
Proof.
  destruct v as [| |b|x|s|r elems|r props]; simpl; try reflexivity.
  - apply eqb_reflx.
  - destruct x as [s|s| |s m e]; simpl; try reflexivity.
    + unfold JsNumber.eqb, SFeqb. simpl. now destruct s.
    + unfold JsNumber.eqb, SFeqb. simpl.
      rewrite Z.compare_refl, (mantissa_compare_refl m). now destruct s.
  - apply String.eqb_refl.
  - apply Nat.eqb_refl.
  - apply Nat.eqb_refl.
Qed.

(** X6. On an array, [not.toContain(item)] throws exactly when some element is
    the same value as [item] under SameValueZero; in particular it throws
    for every [item] that is an element of the array, [NaN] included
    (which [toBe] never finds equal to itself). *)
Theorem not_toContain_on_array (r : nat) (elems : list JsValue)
  (item : JsValue) :
  (throws (Expect.Not.toContain (JArr r elems) item) = true
   <-> exists e, In e elems /\ same_value_zero item e = true)
  /\ (In item elems ->
      throws (Expect.Not.toContain (JArr r elems) item) = true).
Proof.
  assert (H : throws (Expect.Not.toContain (JArr r elems) item)
              = existsb (same_value_zero item) elems).
  { unfold Expect.Not.toContain. simpl.
    destruct (existsb (same_value_zero item) elems); [|reflexivity].
    now destruct (ToString item). }
  rewrite H, existsb_exists. split; [tauto|].
  intros Hin. exists item. split; [exact Hin|apply same_value_zero_refl].
Qed.

Lemma not_toContain_finds_NaN :
  throws (Expect.Not.toContain (JArr 0 [JNum JsNumber.NaN]) (JNum JsNumber.NaN))
  = true.
Proof.
  apply (not_toContain_on_array 0 [JNum JsNumber.NaN] (JNum JsNumber.NaN)).
  left. reflexivity.
Defined.

(** X7. A value that passes [toHaveProperty] is truthy, and a truthy value is
    neither [undefined] nor [null]: [toHaveProperty] passing implies
    [toBeTruthy] passing, which implies [toBeDefined] and [not.toBeNull]
    passing. *)
Theorem property_truthy_defined (actual : JsValue) (prop : string) :
  (Expect.toHaveProperty actual prop = Normal tt ->
   Expect.toBeTruthy actual = Normal tt)
  /\ (Expect.toBeTruthy actual = Normal tt ->
      Expect.toBeDefined actual = Normal tt
      /\ Expect.Not.toBeNull actual = Normal tt).
Proof.
  unfold Expect.toHaveProperty, Expect.toBeTruthy, Expect.toBeDefined,
    Expect.Not.toBeNull.
  split.
  - destruct (ToBoolean actual); [reflexivity|discriminate].
  - destruct actual; simpl; try discriminate; auto.
Qed.

Lemma property_truthy_defined_object :
  Expect.toBeTruthy (JObj 0 [("k", JNull)]) = Normal tt.
Proof.
  apply (property_truthy_defined (JObj 0 [("k", JNull)]) "k"). reflexivity.
Defined.

End MatcherLaws.

(** ** More on the runner *)

Section RunnerLaws.
Import Runner Console.

Lemma failure_list_console (fs : list Failure) (st : State) :
  console
    (fold_left
       (fun st f =>
          console_log ("  - " ++ description f ++ ": " ++ error f) st)
       fs st)
  = (console st ++ map failure_line fs)%list.
Proof.
  revert st. induction fs as [|f fs IH]; intro st; simpl.
  - now rewrite app_nil_r.
  - rewrite IH. simpl. now rewrite <- app_assoc.
Qed.

Lemma console_of_main (stmts : list statement) :
  console (fst (main stmts))
  = (flat_map report stmts
     ++ count_lines (passed stmts) (failed stmts)
     ++ (if (0 <? failed stmts)%nat then
           failures_header
           :: map failure_line (flat_map failure_of (cases stmts))
         else [all_passed_line]))%list.
Proof.
  unfold main, summary, count_lines.
  destruct (exec_all_effect stmts initial) as (Hp & Hf & Hl & Hc).
  simpl in Hp, Hf, Hl, Hc. cbn [passCount failCount failures console_log].
  rewrite Hp, Hf.
  destruct (0 <? failed stmts)%nat; cbn [fst].
  - rewrite failure_list_console. cbn [console failures console_log].
    rewrite Hc, Hl, <- !app_assoc. reflexivity.
  - cbn [console console_log]. rewrite Hc, <- !app_assoc. reflexivity.
Qed.

(** X8. Everything a run prints, line by line: the lines of the statements in
    order, the four summary lines with the counts, and then either one
    line per recorded failure, in execution order, under a [Failures:]
    header, or the all-passed line. *)
Theorem run_prints_statements_then_summary (stmts : list statement) :
  console (fst (main stmts))
  = (flat_map report stmts
     ++ count_lines (passed stmts) (failed stmts)
     ++ (if (0 <? failed stmts)%nat then
           failures_header
           :: map failure_line (flat_map failure_of (cases stmts))
         else [all_passed_line]))%list.
Proof.
  unfold main, summary, count_lines.
  destruct (exec_all_effect stmts initial) as (Hp & Hf & Hl & Hc).
  simpl in Hp, Hf, Hl, Hc. cbn [passCount failCount failures console_log].
  rewrite Hp, Hf.
  destruct (0 <? failed stmts)%nat; cbn [fst].
  - rewrite failure_list_console. cbn [console failures console_log].
    rewrite Hc, Hl, <- !app_assoc. reflexivity.
  - cbn [console console_log]. rewrite Hc, <- !app_assoc. reflexivity.
Qed.

Lemma stderr_of_reports (stmts : list statement) :
  List.length (filter on_stderr (flat_map report stmts))
  = (2 * failed stmts)%nat.
Proof.
  induction stmts as [|stmt stmts IH]; [reflexivity|].
  rewrite (failed_cons stmt stmts).
  cbn [flat_map]. rewrite filter_app, length_app, IH.
  destruct stmt as [line|d f]; unfold failed; simpl; [lia|].
  unfold fails, throws. simpl. destruct (f tt); simpl; lia.
Qed.

Lemma stderr_of_failure_lines (fs : list Failure) :
  filter on_stderr (map failure_line fs) = [].
Proof. induction fs as [|f fs IH]; [reflexivity|exact IH]. Qed.

(** X9. A run writes to the error stream exactly two lines per failing case
    and nothing else: the error stream is empty exactly when the exit code
    is 0. *)
Theorem stderr_has_two_lines_per_failure (stmts : list statement) :
  List.length (filter on_stderr (console (fst (main stmts))))
  = (2 * failed stmts)%nat
  /\ (filter on_stderr (console (fst (main stmts))) = []
      <-> snd (main stmts) = 0).
Proof.
  assert (Hlen : List.length (filter on_stderr (console (fst (main stmts))))
                 = (2 * failed stmts)%nat).
  { rewrite console_of_main, !filter_app, !length_app, stderr_of_reports.
    destruct (0 <? failed stmts)%nat; cbn [filter on_stderr fst];
      rewrite ?stderr_of_failure_lines; simpl; lia. }
  split; [exact Hlen|].
  destruct (summary_effect (exec_all stmts initial)) as (_ & _ & _ & _ & Hcode).
  destruct (exec_all_effect stmts initial) as (_ & Hf & _).
  simpl in Hf. unfold main. rewrite Hcode, Hf.
  fold (main stmts).
  destruct (filter on_stderr (console (fst (main stmts)))) as [|l ls];
    simpl in Hlen.
  - assert (failed stmts = 0)%nat as -> by lia. simpl. tauto.
  - destruct (failed stmts) as [|n]; [discriminate|]. simpl.
    split; discriminate.
Qed.

Lemma cases_permutation (xs ys : list statement) :
  Permutation xs ys -> Permutation (cases xs) (cases ys).
Proof.
  induction 1 as [|x xs ys _ IH|x y xs|xs ys zs _ IH1 _ IH2].
  - constructor.
  - destruct x; simpl; [exact IH|now constructor].
  - destruct x, y; simpl; try apply Permutation_refl.
    apply perm_swap.
  - eapply Permutation_trans; eassumption.
Qed.

Lemma filter_length_permutation {A : Type} (f : A -> bool) (xs ys : list A) :
  Permutation xs ys ->
  List.length (filter f xs) = List.length (filter f ys).
Proof.
  induction 1 as [|x xs ys _ IH|x y xs|xs ys zs _ IH1 _ IH2]; simpl.
  - reflexivity.
  - destruct (f x); simpl; now rewrite IH.
  - destruct (f x), (f y); reflexivity.
  - now rewrite IH1.
Qed.

(** X10. The outcome of a run does not depend on the order of its statements:
    reordering them leaves the two counts and the exit code unchanged. *)
Theorem counts_do_not_depend_on_order (stmts stmts' : list statement) :
  Permutation stmts stmts' ->
  passCount (fst (main stmts)) = passCount (fst (main stmts'))
  /\ failCount (fst (main stmts)) = failCount (fst (main stmts'))
  /\ snd (main stmts) = snd (main stmts').
Proof.
  intros Hperm. apply cases_permutation in Hperm.
  assert (Hf : failed stmts = failed stmts')
    by (unfold failed; now apply filter_length_permutation).
  assert (Hp : passed stmts = passed stmts')
    by (unfold passed; now apply filter_length_permutation).
  unfold main.
  destruct (summary_effect (exec_all stmts initial)) as (Sp & Sf & _ & _ & Sc).
  destruct (summary_effect (exec_all stmts' initial)) as (Sp' & Sf' & _ & _ & Sc').
  destruct (exec_all_effect stmts initial) as (Ep & Ef & _).
  destruct (exec_all_effect stmts' initial) as (Ep' & Ef' & _).
  simpl in Ep, Ef, Ep', Ef'.
  rewrite Sp, Sf, Sc, Sp', Sf', Sc', Ep, Ef, Ep', Ef', Hf, Hp.
  repeat split.
Qed.

Lemma counts_do_not_depend_on_order_swap :
  let failing := Test "fails" (fun _ => Expect.toBe JNull (JBool true)) in
  let passing := Test "passes" (fun _ => Expect.toBe JNull JNull) in
  passCount (fst (main [failing; passing]))
  = passCount (fst (main [passing; failing]))
  /\ failCount (fst (main [failing; passing]))
     = failCount (fst (main [passing; failing]))
  /\ snd (main [failing; passing]) = snd (main [passing; failing]).
Proof.
  intros failing passing.
  apply counts_do_not_depend_on_order. apply perm_swap.
Defined.

End RunnerLaws.

(** ** Numbers with integral values *)

Section IntegralNumbers.
Import JsNumber Semver.

Lemma digits2_size (p : positive) : digits2_pos p = Pos.size p.
Proof. induction p; simpl; now rewrite ?IHp. Qed.

Lemma digits2_iter_xO (p k : positive) :
  digits2_pos (Pos.iter xO p k) = (digits2_pos p + k)%positive.
Proof.
  induction k using Pos.peano_ind.
  - simpl. lia.
  - rewrite Pos.iter_succ. simpl. rewrite IHk. lia.
Qed.

Lemma iter_xO_value (p k : positive) :
  Zpos (Pos.iter xO p k) = Zpos p * 2 ^ Zpos k.
Proof.
  induction k using Pos.peano_ind.
  - simpl. lia.
  - rewrite Pos.iter_succ, Pos2Z.inj_succ, Z.pow_succ_r by lia.
    rewrite Pos2Z.inj_xO, IHk. lia.
Qed.

(** Rounding a mantissa of 53 bits with an exponent in range changes
    nothing. *)
Lemma round_canonical (s : bool) (m : positive) (e : Z) :
  Zpos (digits2_pos m) = 53 -> -1074 <= e <= 971 ->
  binary_round_aux prec emax s (Zpos m) e loc_Exact = S754_finite s m e.
Proof.
  intros Hd He.
  unfold binary_round_aux, shr_fexp, fexp, emin, prec, emax, Zdigits2.
  rewrite Hd.
  replace (Z.max (53 + e - 53) (3 - 1024 - 53) - e) with 0 by lia.
  cbn [shr shr_record_of_loc shr_m loc_of_shr_record round_nearest_even].
  rewrite Hd.
  replace (Z.max (53 + e - 53) (3 - 1024 - 53) - e) with 0 by lia.
  cbn [shr shr_record_of_loc shr_m].
  replace (e <=? 1024 - 53) with true by (symmetry; apply Z.leb_le; lia).
  reflexivity.
Qed.

Lemma of_Z_pos (p : positive) :
  Zpos (digits2_pos p) <= 53 ->
  of_Z (Zpos p) = S754_finite false (mantissa_of p) (Zpos (digits2_pos p) - 53).
Proof.
  intros Hd.
  unfold of_Z, binary_normalize, binary_round, shl_align, fexp, emin, prec, emax, mantissa_of.
  replace (Z.max (Z.pos (digits2_pos p) + 0 - 53) (3 - 1024 - 53)) with (Zpos (digits2_pos p) - 53) by lia.
  destruct (Zpos (digits2_pos p) - 53 - 0) eqn:E1; destruct (53 - Zpos (digits2_pos p)) eqn:E2; try lia.
  - replace (Zpos (digits2_pos p) - 53) with 0 by lia.
    apply round_canonical; lia.
  - assert (p0 = p1) by lia. subst p1.
    apply round_canonical; [|lia].
    rewrite digits2_iter_xO. lia.
Qed.

Lemma size_bounds (p : positive) :
  2 ^ (Zpos (Pos.size p) - 1) <= Zpos p < 2 ^ Zpos (Pos.size p).
Proof.
  pose proof (Pos.size_gt p) as Hgt.
  pose proof (Pos.size_le p) as Hle.
  assert (H1 : Zpos p < Zpos (2 ^ Pos.size p)) by lia.
  assert (H2 : Zpos (2 ^ Pos.size p) <= 2 * Zpos p) by lia.
  rewrite Pos2Z.inj_pow in H1, H2.
  replace (2 ^ Zpos (Pos.size p)) with (2 * 2 ^ (Zpos (Pos.size p) - 1)) in H2.
  - lia.
  - rewrite <- Z.pow_succ_r by lia. f_equal. lia.
Qed.

Lemma digits_lt_value (p q : positive) :
  (digits2_pos p < digits2_pos q)%positive -> (p < q)%positive.
Proof.
  rewrite (digits2_size p), (digits2_size q). intros H.
  pose proof (size_bounds p) as Hp.
  pose proof (size_bounds q) as Hq.
  assert (2 ^ Zpos (Pos.size p) <= 2 ^ (Zpos (Pos.size q) - 1))
    by (apply Z.pow_le_mono_r; lia).
  lia.
Qed.

Lemma mantissa_compare (p q : positive) :
  digits2_pos p = digits2_pos q ->
  PosDef.Pos.compare_cont Eq (mantissa_of p) (mantissa_of q) = (p ?= q)%positive.
Proof.
  intros Hd. unfold mantissa_of. rewrite <- Hd.
  change (PosDef.Pos.compare_cont Eq) with Pos.compare.
  destruct (53 - Zpos (digits2_pos p)) as [|k|k]; try reflexivity.
  rewrite (Pos2Z.inj_compare (Pos.iter xO p k)), (Pos2Z.inj_compare p q).
  rewrite !iter_xO_value.
  assert (Hpow : 0 < 2 ^ Zpos k) by (apply Z.pow_pos_nonneg; lia).
  destruct (Z.compare_spec (Zpos p) (Zpos q)) as [E|E|E].
  - rewrite E. apply Z.compare_refl.
  - apply Z.compare_lt_iff. nia.
  - apply Z.compare_gt_iff. nia.
Qed.

Lemma of_Z_compare_pos (p q : positive) :
  Zpos (digits2_pos p) <= 53 -> Zpos (digits2_pos q) <= 53 ->
  SFcompare (of_Z (Zpos p)) (of_Z (Zpos q)) = Some (p ?= q)%positive.
Proof.
  intros Hp Hq. rewrite (of_Z_pos p Hp), (of_Z_pos q Hq).
  cbn [SFcompare]. f_equal.
  destruct (Z.compare_spec (Zpos (digits2_pos p) - 53) (Zpos (digits2_pos q) - 53)) as [E|E|E].
  - apply mantissa_compare. lia.
  - symmetry. apply Pos.compare_lt_iff, digits_lt_value. lia.
  - symmetry. apply Pos.compare_gt_iff, digits_lt_value. lia.
Qed.

Lemma safe_digits (p : positive) : safe_integer (Zpos p) -> Zpos (digits2_pos p) <= 53.
Proof.
  unfold safe_integer. intros [_ H]. rewrite digits2_size.
  pose proof (size_bounds p) as Hb.
  destruct (Z.le_gt_cases (Zpos (Pos.size p)) 53) as [|Hgt]; [assumption|exfalso].
  assert (2 ^ 53 <= 2 ^ (Zpos (Pos.size p) - 1)) by (apply Z.pow_le_mono_r; lia).
  lia.
Qed.

Lemma of_Z_compare (a b : Z) :
  safe_integer a -> safe_integer b -> SFcompare (of_Z a) (of_Z b) = Some (a ?= b).
Proof.
  intros Ha Hb.
  destruct a as [|p|p], b as [|q|q]; try (unfold safe_integer in *; lia).
  - reflexivity.
  - rewrite (of_Z_pos q (safe_digits q Hb)). reflexivity.
  - rewrite (of_Z_pos p (safe_digits p Ha)). reflexivity.
  - rewrite of_Z_compare_pos by now apply safe_digits. reflexivity.
Qed.

(** [<], [<=] and [===] on the Numbers of two safe integers are the
    comparisons of the integers. *)
Lemma of_Z_ltb (a b : Z) :
  safe_integer a -> safe_integer b -> ltb (of_Z a) (of_Z b) = (a <? b).
Proof.
  intros Ha Hb. unfold ltb, SFltb, Z.ltb. rewrite of_Z_compare by assumption.
  reflexivity.
Qed.

Lemma of_Z_eqb (a b : Z) :
  safe_integer a -> safe_integer b -> eqb (of_Z a) (of_Z b) = (a =? b).
Proof.
  intros Ha Hb. unfold eqb, SFeqb, Z.eqb. rewrite of_Z_compare by assumption.
  now destruct a, b; simpl; try reflexivity;
    try (destruct (Pos.compare_spec p p0); subst;
         rewrite ?Pos.eqb_refl; try reflexivity;
         symmetry; apply Pos.eqb_neq; lia).
Qed.

End IntegralNumbers.

(** ** The Next.js version checks on every version *)

Section VersionLaws.
Import JsNumber Semver Js Checks.

Lemma digit_value_decimal (c : ascii) :
  is_digit c = true ->
  StringToNumber.digit_value 10 c = Some (Z.of_nat (nat_of_ascii c) - 48).
Proof.
  unfold is_digit, StringToNumber.digit_value. intros H.
  apply andb_true_iff in H. destruct H as [H1 H2].
  apply Nat.leb_le in H1, H2.
  replace (48 <=? Z.of_nat (nat_of_ascii c)) with true
    by (symmetry; apply Z.leb_le; lia).
  replace (Z.of_nat (nat_of_ascii c) <=? 57) with true
    by (symmetry; apply Z.leb_le; lia).
  cbn [andb].
  replace (Z.of_nat (nat_of_ascii c) - 48 <? 10) with true
    by (symmetry; apply Z.ltb_lt; lia).
  reflexivity.
Qed.

Lemma span_digits_decimal (s : string) :
  forall count acc,
    all_digits s = true ->
    StringToNumber.span_digits 10 count acc s
    = ((count + String.length s)%nat, decimal_value_from acc s, "").
Proof.
  induction s as [|c s IH]; intros count acc H; simpl.
  - now rewrite Nat.add_0_r.
  - simpl in H. apply andb_true_iff in H. destruct H as [Hc Hs].
    rewrite (digit_value_decimal c Hc), (IH _ _ Hs).
    f_equal. f_equal. lia.
Qed.

Lemma decimal_value_from_nonneg (s : string) :
  forall acc, 0 <= acc -> all_digits s = true -> 0 <= decimal_value_from acc s.
Proof.
  induction s as [|c s IH]; intros acc Hacc H; simpl; [assumption|].
  simpl in H. apply andb_true_iff in H. destruct H as [Hc Hs].
  apply IH; [|assumption].
  unfold is_digit in Hc. apply andb_true_iff in Hc. destruct Hc as [H1 _].
  apply Nat.leb_le in H1. lia.
Qed.

Lemma strip1_digit (c : ascii) (s : string) :
  is_digit c = true ->
  JsString.strip1 JsString.white_space (String c s) = None
  /\ JsString.strip1 (map JsString.rev JsString.white_space) (String c s) = None.
Proof.
  destruct c as [[] [] [] [] [] [] [] []]; try discriminate; intros _;
    split; reflexivity.
Qed.

Lemma all_digits_list (s : string) :
  all_digits s = forallb is_digit (list_ascii_of_string s).
Proof. induction s as [|c s IH]; simpl; [reflexivity|now rewrite IH]. Qed.

Lemma forallb_rev {A : Type} (f : A -> bool) (l : list A) :
  forallb f (List.rev l) = forallb f l.
Proof.
  induction l as [|x l IH]; simpl; [reflexivity|].
  rewrite forallb_app, IH. simpl. rewrite andb_true_r. apply andb_comm.
Qed.

Lemma rev_involutive (s : string) : JsString.rev (JsString.rev s) = s.
Proof.
  unfold JsString.rev.
  rewrite list_ascii_of_string_of_list_ascii, List.rev_involutive.
  apply string_of_list_ascii_of_string.
Qed.

Lemma rev_decimal (s : string) :
  is_decimal s = true ->
  exists c t, JsString.rev s = String c t /\ is_digit c = true.
Proof.
  unfold is_decimal. intros H. apply andb_true_iff in H. destruct H as [Hne Hd].
  rewrite all_digits_list, <- forallb_rev in Hd.
  unfold JsString.rev.
  destruct (List.rev (list_ascii_of_string s)) as [|c l] eqn:E.
  - apply (f_equal (@List.rev ascii)) in E. rewrite List.rev_involutive in E.
    simpl in E. apply (f_equal string_of_list_ascii) in E.
    rewrite string_of_list_ascii_of_string in E. subst s. discriminate.
  - simpl in Hd. apply andb_true_iff in Hd. destruct Hd as [Hc _].
    exists c, (string_of_list_ascii l). split; [reflexivity|assumption].
Qed.

Lemma rev_length (s : string) : String.length (JsString.rev s) = String.length s.
Proof.
  unfold JsString.rev.
  assert (H : forall l, String.length (string_of_list_ascii l) = List.length l)
    by (induction l; simpl; congruence).
  assert (H' : forall t, List.length (list_ascii_of_string t) = String.length t)
    by (induction t; simpl; congruence).
  now rewrite H, List.length_rev, H'.
Qed.

Lemma trim_decimal (s : string) : is_decimal s = true -> JsString.trim s = s.
Proof.
  intros H. unfold JsString.trim.
  destruct (rev_decimal s H) as (c' & t & Hrev & Hc').
  unfold is_decimal in H. apply andb_true_iff in H. destruct H as [Hne Hd].
  destruct s as [|c s]; [discriminate|].
  simpl in Hd. apply andb_true_iff in Hd. destruct Hd as [Hc Hs].
  cbn [String.length JsString.strip].
  rewrite (proj1 (strip1_digit c s Hc)).
  cbn [String.length JsString.strip].
  rewrite Hrev, (proj2 (strip1_digit c' t Hc')), <- Hrev.
  apply rev_involutive.
Qed.

Lemma decimal_dispatch (s : string) :
  is_decimal s = true ->
  StringToNumber.StringToNumber s = StringToNumber.unsigned_decimal false s.
Proof.
  intros H. unfold StringToNumber.StringToNumber. rewrite (trim_decimal s H).
  unfold is_decimal in H. apply andb_true_iff in H. destruct H as [Hne Hd].
  destruct s as [|c s]; [discriminate|].
  simpl in Hd. apply andb_true_iff in Hd. destruct Hd as [Hc Hs].
  destruct c as [[] [] [] [] [] [] [] []]; try discriminate; try reflexivity.
  destruct s as [|c s]; [reflexivity|].
  simpl in Hs. apply andb_true_iff in Hs. destruct Hs as [Hc' _].
  destruct c as [[] [] [] [] [] [] [] []]; try discriminate; reflexivity.
Qed.

Lemma not_Infinity (s : string) :
  is_decimal s = true -> String.eqb s "Infinity" = false.
Proof.
  unfold is_decimal. intros H. apply andb_true_iff in H. destruct H as [Hne Hd].
  destruct s as [|c s]; [discriminate|].
  simpl in Hd. apply andb_true_iff in Hd. destruct Hd as [Hc _].
  destruct c as [[] [] [] [] [] [] [] []]; try discriminate; reflexivity.
Qed.

(** [Number(s)] for a string of decimal digits is the Number of the integer
    it denotes. *)
Lemma StringToNumber_decimal (s : string) :
  is_decimal s = true ->
  StringToNumber.StringToNumber s = of_Z (decimal_value s).
Proof.
  intros H. rewrite (decimal_dispatch s H).
  unfold StringToNumber.unsigned_decimal. rewrite (not_Infinity s H).
  pose proof H as H0.
  unfold is_decimal in H. apply andb_true_iff in H. destruct H as [Hne Hd].
  rewrite (span_digits_decimal s 0 0 Hd).
  cbn [Nat.add StringToNumber.exponent_part].
  destruct s as [|c s]; [discriminate|].
  cbn [String.length Nat.add].
  unfold StringToNumber.scaled, decimal_value.
  pose proof (decimal_value_from_nonneg (String c s) 0 (Z.le_refl 0) Hd) as Hnn.
  destruct (decimal_value_from 0 (String c s)) as [|p|p] eqn:E; [reflexivity| |lia].
  cbn [Z.eqb]. replace (400 <? 0 - Z.of_nat 0) with false by reflexivity.
  replace (0 - Z.of_nat 0 + Z.of_nat (S (String.length s)) <? -400) with false
    by (symmetry; apply Z.ltb_ge; lia).
  unfold of_decimal. cbn [Z.sub Z.of_nat Z.opp Z.add Z.leb Z.compare cond_Zopp Z.pow Z.pow_pos Pos.iter Z.mul].
  rewrite Pos.mul_1_r. reflexivity.
Qed.
Lemma split_go_no_dot (a : string) :
  forall cur, no_dot a = true -> JsString.split_go "." 0 cur a = [cur ++ a].
Proof.
  induction a as [|c a IH]; intros cur H.
  - simpl. now rewrite append_nil_r.
  - simpl in H. apply andb_true_iff in H. destruct H as [Hc Ha].
    cbn [JsString.split_go]. rewrite startsWith_char, Ascii.eqb_sym.
    apply negb_true_iff in Hc. rewrite Hc, (IH _ Ha), append_assoc.
    reflexivity.
Qed.

Lemma split_go_dot (a rest : string) :
  forall cur,
    no_dot a = true ->
    JsString.split_go "." 0 cur (a ++ String "." rest)
    = (cur ++ a) :: JsString.split_go "." 0 "" rest.
Proof.
  induction a as [|c a IH]; intros cur H.
  - cbn [append JsString.split_go]. rewrite startsWith_char.
    cbn. now rewrite append_nil_r.
  - simpl in H. apply andb_true_iff in H. destruct H as [Hc Ha].
    cbn [append JsString.split_go]. rewrite startsWith_char, Ascii.eqb_sym.
    apply negb_true_iff in Hc. rewrite Hc, (IH _ Ha), append_assoc.
    reflexivity.
Qed.

Lemma split_three (a b c : string) :
  no_dot a = true -> no_dot b = true -> no_dot c = true ->
  JsString.split (a ++ "." ++ b ++ "." ++ c) "." = [a; b; c].
Proof.
  intros Ha Hb Hc. unfold JsString.split.
  change ("." ++ b ++ "." ++ c) with (String "." (b ++ String "." c)).
  rewrite (split_go_dot a _ "" Ha), (split_go_dot b _ "" Hb),
    (split_go_no_dot c "" Hc).
  reflexivity.
Qed.

Lemma digits_no_dot (s : string) : all_digits s = true -> no_dot s = true.
Proof.
  induction s as [|c s IH]; simpl; [reflexivity|]. intros H.
  apply andb_true_iff in H. destruct H as [Hc Hs]. rewrite (IH Hs), andb_true_r.
  destruct c as [[] [] [] [] [] [] [] []]; try discriminate; reflexivity.
Qed.

Lemma substring_all (s : string) : substring 0 (String.length s) s = s.
Proof. induction s as [|c s IH]; simpl; [reflexivity|now rewrite IH]. Qed.

Lemma search_after_start (r : RegExp.regex) (s : string) :
  forall pos, RegExp.search (RegExp.Seq RegExp.Bol r) (S pos) s = None.
Proof.
  induction s as [|c s IH]; intro pos; [reflexivity|].
  cbn [RegExp.search]. rewrite (IH (S pos)). reflexivity.
Qed.

(** Cleaning a version: a leading [^] or [~] is dropped, and a version that
    starts with a digit is kept as it is. *)
Lemma replace_range_prefix (prefix rest : string) (d : ascii) :
  is_range_prefix prefix = true -> is_digit d = true ->
  RegExp.replace (prefix ++ String d rest) range_prefix "" = String d rest.
Proof.
  intros Hp Hd. unfold is_range_prefix in Hp.
  unfold RegExp.replace, RegExp.exec.
  destruct (String.eqb_spec prefix "") as [->|_];
    [|destruct (String.eqb_spec prefix "^") as [->|_];
      [|destruct (String.eqb_spec prefix "~") as [->|_]; [|discriminate]]].
  - cbn [append range_prefix RegExp.pattern RegExp.search].
    rewrite search_after_start.
    destruct d as [[] [] [] [] [] [] [] []]; try discriminate; reflexivity.
  - change ("^" ++ String d rest) with (String "^" (String d rest)).
    replace (RegExp.search (RegExp.pattern range_prefix) 0
               (String "^" (String d rest))) with (Some (0, 1)%nat)
      by reflexivity.
    unfold JsString.take, JsString.drop.
    cbn [substring String.length Nat.sub append].
    now rewrite substring_all.
  - change ("~" ++ String d rest) with (String "~" (String d rest)).
    replace (RegExp.search (RegExp.pattern range_prefix) 0
               (String "~" (String d rest))) with (Some (0, 1)%nat)
      by reflexivity.
    unfold JsString.take, JsString.drop.
    cbn [substring String.length Nat.sub append].
    now rewrite substring_all.
Qed.

Lemma version_numbers_map (s : string) :
  version_numbers s
  = Normal (map (fun part => JNum (StringToNumber.StringToNumber part))
              (JsString.split s ".")).
Proof.
  unfold version_numbers.
  induction (JsString.split s ".") as [|part parts IH]; [reflexivity|].
  cbn [map Array_map]. rewrite IH. reflexivity.
Qed.

Lemma decimal_first_digit (s : string) :
  is_decimal s = true ->
  exists d rest, s = String d rest /\ is_digit d = true /\ all_digits s = true.
Proof.
  unfold is_decimal. intros H. apply andb_true_iff in H. destruct H as [Hne Hd].
  destruct s as [|d rest]; [discriminate|].
  exists d, rest. simpl in Hd. pose proof Hd as Hall.
  apply andb_true_iff in Hd. destruct Hd as [Hd _].
  repeat split; assumption.
Qed.

Lemma safe_15 : safe_integer 15. Proof. unfold safe_integer. lia. Qed.
Lemma safe_5 : safe_integer 5. Proof. unfold safe_integer. lia. Qed.
Lemma safe_10 : safe_integer 10. Proof. unfold safe_integer. lia. Qed.

(** The parts both checks read from a version [a.b.c] of decimal
    segments, whatever its range prefix. *)
Lemma parts_of_version (prefix a b c : string) :
  is_range_prefix prefix = true ->
  is_decimal a = true -> is_decimal b = true -> is_decimal c = true ->
  (let* cleanVersion :=
     call_replace (JStr (prefix ++ a ++ "." ++ b ++ "." ++ c)) range_prefix "" in
   version_numbers cleanVersion)
  = Normal [num (decimal_value a); num (decimal_value b); num (decimal_value c)].
Proof.
  intros Hp Ha Hb Hc.
  destruct (decimal_first_digit a Ha) as (d & rest & -> & Hd & Hda).
  destruct (decimal_first_digit b Hb) as (_ & _ & _ & _ & Hdb).
  destruct (decimal_first_digit c Hc) as (_ & _ & _ & _ & Hdc).
  cbn [call_replace bind].
  change (prefix ++ String d rest ++ "." ++ b ++ "." ++ c)
    with (prefix ++ String d (rest ++ "." ++ b ++ "." ++ c)).
  rewrite (replace_range_prefix prefix _ d Hp Hd).
  change (String d (rest ++ "." ++ b ++ "." ++ c))
    with (String d rest ++ "." ++ b ++ "." ++ c).
  rewrite version_numbers_map, split_three by now apply digits_no_dot.
  cbn [map]. rewrite !StringToNumber_decimal by assumption.
  reflexivity.
Qed.

(** X11. For a [next] version written [a.b.c] in decimal digits (each segment
    below 2^53), with or without a [^] or [~] in front, each form of the
    Next.js check throws exactly when [a.b.c] is below [15.5.10] in version
    order. *)
Theorem next_check_compares_versions (packageJson dependencies : JsValue)
  (prefix a b c : string) :
  get packageJson "dependencies" = Normal dependencies ->
  get dependencies "next" = Normal (JStr (prefix ++ a ++ "." ++ b ++ "." ++ c)) ->
  is_range_prefix prefix = true ->
  is_decimal a = true -> is_decimal b = true -> is_decimal c = true ->
  safe_integer (decimal_value a) ->
  safe_integer (decimal_value b) ->
  safe_integer (decimal_value c) ->
  throws (uses_fixed_next packageJson)
  = negb (at_least_15_5_10 (decimal_value a) (decimal_value b) (decimal_value c))
  /\ throws (not_vulnerable_next packageJson)
     = negb (at_least_15_5_10 (decimal_value a) (decimal_value b)
               (decimal_value c)).
Proof.
  intros Hdeps Hnext Hp Ha Hb Hc Sa Sb Sc.
  pose proof (parts_of_version prefix a b c Hp Ha Hb Hc) as Hparts.
  unfold uses_fixed_next, not_vulnerable_next.
  rewrite Hdeps. cbn [bind]. rewrite Hnext. cbn [bind].
  destruct (call_replace _ range_prefix "") as [clean|e]; [|discriminate].
  cbn [bind] in Hparts |- *. rewrite Hparts. cbn [bind element nth].
  unfold Expect.toBeGreaterThanOrEqual, Expect.toBe, js_lt, orb_lazy, andb_lazy.
  unfold num.
  cbn [bind ToPrimitive lt_prim ToNumber_prim strict_equals].
  rewrite !of_Z_ltb, !of_Z_eqb by (assumption || apply safe_15 || apply safe_5 || apply safe_10).
  unfold at_least_15_5_10.
  set (A := decimal_value a). set (B := decimal_value b). set (C := decimal_value c).
  destruct (Z.ltb_spec A 15), (Z.eqb_spec A 15), (Z.ltb_spec 15 A),
    (Z.ltb_spec B 5), (Z.eqb_spec B 5), (Z.ltb_spec 5 B),
    (Z.ltb_spec C 10), (Z.leb_spec 10 C); try lia; split; reflexivity.
Qed.

Lemma next_check_compares_16_0_1 :
  throws (uses_fixed_next (scenario [("next", JStr "~16.0.1")] [])) = false
  /\ throws (not_vulnerable_next (scenario [("next", JStr "~16.0.1")] []))
     = false.
Proof.
  apply (next_check_compares_versions
           (scenario [("next", JStr "~16.0.1")] [])
           (JObj 1 [("next", JStr "~16.0.1")]) "~" "16" "0" "1");
    try reflexivity; vm_compute; split; (discriminate || reflexivity).
Defined.

(** The two forms of the check decide alike on any three parts. *)
Lemma check_forms_agree (major minor patch : JsValue) :
  throws
    (Expect.toBeGreaterThanOrEqual major (num 15);;
     if strict_equals major (num 15) then
       Expect.toBeGreaterThanOrEqual minor (num 5);;
       if strict_equals minor (num 5) then
         Expect.toBeGreaterThanOrEqual patch (num 10)
       else Normal tt
     else Normal tt)
  = throws
      (let* isVulnerable :=
         orb_lazy
           (orb_lazy (js_lt major (num 15))
              (fun _ => andb_lazy (Normal (strict_equals major (num 15)))
                          (fun _ => js_lt minor (num 5))))
           (fun _ =>
              andb_lazy
                (andb_lazy (Normal (strict_equals major (num 15)))
                   (fun _ => Normal (strict_equals minor (num 5))))
                (fun _ => js_lt patch (num 10))) in
       Expect.toBe (JBool isVulnerable) (JBool false)).
Proof.
  unfold Expect.toBeGreaterThanOrEqual, Expect.toBe, orb_lazy, andb_lazy.
  destruct (js_lt major (num 15)) as [[|]|e1]; cbn [bind];
    try reflexivity.
  - destruct (ToString major); [|reflexivity].
    destruct (ToString (num 15)); reflexivity.
  - destruct (strict_equals major (num 15)); cbn [bind]; [|reflexivity].
    destruct (js_lt minor (num 5)) as [[|]|e2]; cbn [bind]; try reflexivity.
    + destruct (ToString minor); [|reflexivity].
      destruct (ToString (num 5)); reflexivity.
    + destruct (strict_equals minor (num 5)); cbn [bind]; [|reflexivity].
      destruct (js_lt patch (num 10)) as [[|]|e3]; cbn [bind]; try reflexivity.
      destruct (ToString patch); [|reflexivity].
      destruct (ToString (num 10)); reflexivity.
Qed.

(** X12. The two Next.js checks of the script never disagree: on every manifest,
    of any shape, one throws exactly when the other does. *)
Theorem next_checks_agree (packageJson : JsValue) :
  throws (uses_fixed_next packageJson)
  = throws (not_vulnerable_next packageJson).
Proof.
  unfold uses_fixed_next, not_vulnerable_next.
  destruct (get packageJson "dependencies") as [dependencies|e]; [|reflexivity].
  cbn [bind].
  destruct (get dependencies "next") as [nextVersion|e]; [|reflexivity].
  cbn [bind].
  destruct (call_replace nextVersion range_prefix "") as [clean|e];
    [|reflexivity].
  cbn [bind].
  destruct (version_numbers clean) as [parts|e]; [|reflexivity].
  cbn [bind]. apply check_forms_agree.
Qed.

Lemma split_head_15 (rest : string) :
  JsString.split ("15" ++ String "." rest) "."
  = "15" :: JsString.split_go "." 0 "" rest.
Proof. exact (split_go_dot "15" rest "" eq_refl). Qed.

Lemma split_head_segment (seg more : string) :
  no_dot seg = true ->
  more = "" \/ (exists m, more = String "." m) ->
  exists others, JsString.split_go "." 0 "" (seg ++ more) = seg :: others.
Proof.
  intros Hseg [->|[m ->]].
  - exists []. now rewrite append_nil_r, split_go_no_dot.
  - eexists. now rewrite split_go_dot.
Qed.

(** X13. Both forms of the check pass a version whose major segment is [15] and
    whose minor segment is missing or not numeric ([^15], [15.x],
    [~15.x.0]): the comparison of the minor with 5 involves NaN and finds
    nothing, although such a version allows releases below 15.5.10. *)
Theorem next_check_passes_without_numeric_minor
  (packageJson dependencies : JsValue) (prefix rest : string) :
  get packageJson "dependencies" = Normal dependencies ->
  get dependencies "next" = Normal (JStr (prefix ++ "15" ++ rest)) ->
  is_range_prefix prefix = true ->
  minor_not_numeric rest ->
  uses_fixed_next packageJson = Normal tt
  /\ not_vulnerable_next packageJson = Normal tt.
Proof.
  intros Hdeps Hnext Hp Hrest.
  unfold uses_fixed_next, not_vulnerable_next.
  rewrite Hdeps. cbn [bind]. rewrite Hnext. cbn [bind call_replace].
  change (prefix ++ "15" ++ rest) with (prefix ++ String "1" (String "5" rest)).
  rewrite (replace_range_prefix prefix _ "1" Hp eq_refl), version_numbers_map.
  destruct Hrest as [->|(seg & more & -> & Hseg & Hnan & Hmore)].
  - split; reflexivity.
  - change (String "1" (String "5" ("." ++ seg ++ more)))
      with ("15" ++ String "." (seg ++ more)).
    rewrite split_head_15.
    destruct (split_head_segment seg more Hseg Hmore) as [others ->].
    cbn [map bind element nth].
    destruct (StringToNumber.StringToNumber seg); try discriminate.
    split; reflexivity.
Qed.

Lemma next_check_passes_15_x :
  (uses_fixed_next (scenario [("next", JStr "^15")] []) = Normal tt
   /\ not_vulnerable_next (scenario [("next", JStr "^15")] []) = Normal tt)
  /\ (uses_fixed_next (scenario [("next", JStr "15.x.0")] []) = Normal tt
      /\ not_vulnerable_next (scenario [("next", JStr "15.x.0")] [])
         = Normal tt).
Proof.
  split.
  - apply (next_check_passes_without_numeric_minor
             (scenario [("next", JStr "^15")] [])
             (JObj 1 [("next", JStr "^15")]) "^" "");
      try reflexivity.
    left. reflexivity.
  - apply (next_check_passes_without_numeric_minor
             (scenario [("next", JStr "15.x.0")] [])
             (JObj 1 [("next", JStr "15.x.0")]) "" ".x.0");
      try reflexivity.
    right. exists "x", ".0". repeat split; try reflexivity.
    right. exists "0". reflexivity.
Defined.

End VersionLaws.

(** ** The script as a whole *)

Section ScriptLaws.
Import JsNumber Semver Js Runner Checks Script.

Lemma bind_normal {A B : Type} (c : completion A) (k : A -> completion B)
  (b : B) :
  bind c k = Normal b -> exists a, c = Normal a /\ k a = Normal b.
Proof. destruct c as [a|e]; simpl; [eauto|discriminate]. Qed.

Lemma unit_normal (c : completion unit) : throws c = false -> c = Normal tt.
Proof. destruct c as [[]|e]; simpl; [reflexivity|discriminate]. Qed.

Lemma toBe_text (v : JsValue) (text : string) :
  Expect.toBe v (JStr text) = Normal tt -> v = JStr text.
Proof.
  unfold Expect.toBe.
  destruct v; simpl; try discriminate.
  destruct (String.eqb_spec s text) as [->|]; [reflexivity|discriminate].
Qed.

Lemma toBe_true (v : JsValue) :
  Expect.toBe v (JBool true) = Normal tt -> v = JBool true.
Proof.
  unfold Expect.toBe. destruct v as [| |[|]| | | |]; simpl; try discriminate.
  reflexivity.
Qed.

Lemma is_text_inv (packageJson : JsValue) (path : list string) (text : string) :
  is_text packageJson path text = Normal tt ->
  member packageJson path = Normal (JStr text).
Proof.
  unfold is_text. intros H. apply bind_normal in H.
  destruct H as (v & Hv & H). apply toBe_text in H. now subst.
Qed.

(** A run that exits with 0 has passed every case. *)
Lemma exit_0_all_pass (stmts : list statement) :
  snd (main stmts) = 0 ->
  forall d f, In (d, f) (cases stmts) -> f tt = Normal tt.
Proof.
  intros Hexit d f Hin.
  destruct (summary_effect (exec_all stmts initial)) as (_ & _ & _ & _ & Hcode).
  destruct (exec_all_effect stmts initial) as (_ & Hf & _).
  unfold main in Hexit. rewrite Hcode, Hf in Hexit. simpl in Hexit.
  assert (Hzero : failed stmts = 0%nat)
    by (destruct (failed stmts); [reflexivity|discriminate]).
  unfold failed in Hzero. apply length_zero_iff_nil in Hzero.
  apply unit_normal.
  destruct (throws (f tt)) eqn:E; [|reflexivity].
  assert (Hmem : In (d, f) (filter fails (cases stmts)))
    by (apply filter_In; split; [exact Hin|exact E]).
  rewrite Hzero in Hmem. destruct Hmem.
Qed.

Lemma range_prefix_found (s : string) :
  RegExp.exec range_prefix s <> None ->
  exists c rest, s = String c rest /\ (c = "^" \/ c = "~")%char.
Proof.
  unfold RegExp.exec. destruct s as [|c rest]; [intros H; now elim H|].
  cbn [range_prefix RegExp.pattern RegExp.search].
  rewrite search_after_start. intros H. exists c, rest. split; [reflexivity|].
  destruct c as [[] [] [] [] [] [] [] []];
    try (now elim H); auto.
Qed.

Lemma member_two (v : JsValue) (k1 k2 : string) (x : JsValue) :
  member v [k1; k2] = Normal x
  <-> exists o, get v k1 = Normal o /\ get o k2 = Normal x.
Proof.
  cbn [member]. split.
  - intros H. apply bind_normal in H. destruct H as (o & Ho & H).
    apply bind_normal in H. destruct H as (y & Hy & H).
    injection H as ->. eauto.
  - intros (o & Ho & Hx). now rewrite Ho; cbn [bind]; rewrite Hx.
Qed.

(** X16. What a green run certifies.  If the script exits with code 0, the
    manifest has the name [@coral-xyz/backpack-web], the version [1.0.0],
    [private: true], the five script commands, [react] and [react-dom]
    pinned to [18.2.0], and a [next] version that is a string starting
    with [^] or [~]. *)
Theorem green_run_certifies_manifest
  (JSON_parse : string -> completion JsValue) (content : string)
  (packageJson : JsValue) :
  snd (main (statements JSON_parse content packageJson)) = 0 ->
  member packageJson ["name"] = Normal (JStr "@coral-xyz/backpack-web")
  /\ member packageJson ["version"] = Normal (JStr "1.0.0")
  /\ member packageJson ["private"] = Normal (JBool true)
  /\ member packageJson ["scripts"; "dev"] = Normal (JStr "next dev")
  /\ member packageJson ["scripts"; "build"] = Normal (JStr "next build")
  /\ member packageJson ["scripts"; "start"] = Normal (JStr "next start")
  /\ member packageJson ["scripts"; "lint"] = Normal (JStr "next lint")
  /\ member packageJson ["scripts"; "lint:fix"] = Normal (JStr "next lint --fix")
  /\ member packageJson ["dependencies"; "react"] = Normal (JStr "18.2.0")
  /\ member packageJson ["dependencies"; "react-dom"] = Normal (JStr "18.2.0")
  /\ (exists c rest,
        member packageJson ["dependencies"; "next"] = Normal (JStr (String c rest))
        /\ (c = "^" \/ c = "~")%char).
Proof.
  intros Hexit.
  pose proof (exit_0_all_pass _ Hexit) as Hpass.
  assert (Hname := Hpass "should have a valid name field" _
                     ltac:(simpl; tauto)).
  assert (Hversion := Hpass "should have a valid version field" _
                        ltac:(simpl; tauto)).
  assert (Hprivate := Hpass "should be marked as private" _
                        ltac:(simpl; tauto)).
  assert (Hnext := Hpass "should have valid Next.js script commands" _
                     ltac:(simpl; tauto)).
  assert (Hlint := Hpass "should have valid lint script commands" _
                     ltac:(simpl; tauto)).
  assert (Hreact := Hpass "should have React 18.2.0 pinned" _
                      ltac:(simpl; tauto)).
  assert (Hfixed := Hpass
                      "should use Next.js 15.5.10 or higher to fix vulnerability"
                      _ ltac:(simpl; tauto)).
  assert (Hrange := Hpass
                      "should use caret or greater for Next.js for security patches"
                      _ ltac:(simpl; tauto)).
  cbv beta in *. clear Hpass Hexit.
  unfold valid_name in Hname. apply bind_normal in Hname.
  destruct Hname as ([] & Hname & _). apply is_text_inv in Hname.
  unfold valid_version in Hversion. apply bind_normal in Hversion.
  destruct Hversion as ([] & Hversion & _). apply is_text_inv in Hversion.
  unfold marked_private in Hprivate. apply bind_normal in Hprivate.
  destruct Hprivate as (v & Hv & Hprivate). apply toBe_true in Hprivate. subst v.
  unfold next_commands in Hnext. apply bind_normal in Hnext.
  destruct Hnext as ([] & Hdev & Hnext). apply is_text_inv in Hdev.
  apply bind_normal in Hnext.
  destruct Hnext as ([] & Hbuild & Hstart).
  apply is_text_inv in Hbuild. apply is_text_inv in Hstart.
  unfold lint_commands in Hlint. apply bind_normal in Hlint.
  destruct Hlint as ([] & Hl & Hfix).
  apply is_text_inv in Hl. apply is_text_inv in Hfix.
  unfold react_pinned in Hreact. apply bind_normal in Hreact.
  destruct Hreact as ([] & Hr & Hdom).
  apply is_text_inv in Hr. apply is_text_inv in Hdom.
  repeat (split; [assumption|]).
  unfold uses_fixed_next in Hfixed. apply bind_normal in Hfixed.
  destruct Hfixed as (deps & Hdeps & Hfixed). apply bind_normal in Hfixed.
  destruct Hfixed as (nv & Hnv & Hfixed). apply bind_normal in Hfixed.
  destruct Hfixed as (clean & Hclean & _).
  assert (Hstr : exists s, nv = JStr s).
  { destruct nv; simpl in Hclean; try discriminate; eauto. }
  destruct Hstr as [s ->].
  assert (Hmember : member packageJson ["dependencies"; "next"] = Normal (JStr s))
    by (apply member_two; eauto).
  unfold next_has_range, field_matches in Hrange. rewrite Hmember in Hrange.
  cbn [bind] in Hrange. unfold Expect.toMatch, RegExp.test in Hrange.
  cbn [ToString bind] in Hrange.
  destruct (range_prefix_found s) as (c & rest & -> & Hc).
  { destruct (RegExp.exec range_prefix s); [discriminate|discriminate]. }
  exists c, rest. split; assumption.
Qed.

Lemma green_run_on_reference_manifest :
  member reference_manifest ["name"] = Normal (JStr "@coral-xyz/backpack-web")
  /\ member reference_manifest ["dependencies"; "react"]
     = Normal (JStr "18.2.0").
Proof.
  destruct (green_run_certifies_manifest (fun _ => Normal reference_manifest)
              "{}" reference_manifest)
    as (Hname & _ & _ & _ & _ & _ & _ & _ & Hreact & _).
  - vm_compute. reflexivity.
  - split; [exact Hname|exact Hreact].
Defined.

(** X18. Cases that cannot fail on their own.  When the name case passes, so
    do the scoped-name case and the name-format case; when the Next.js
    script commands case passes, so does the backward-compatibility case;
    when React is pinned, the React versions are consistent. *)
Theorem implied_cases (packageJson : JsValue) :
  (valid_name packageJson = Normal tt ->
   scoped_name packageJson = Normal tt /\ name_format packageJson = Normal tt)
  /\ (next_commands packageJson = Normal tt ->
      backward_compatible packageJson = Normal tt)
  /\ (react_pinned packageJson = Normal tt ->
      consistent_react packageJson = Normal tt).
Proof.
  split; [|split].
  - intros H. unfold valid_name in H. apply bind_normal in H.
    destruct H as ([] & Hname & _). apply is_text_inv in Hname.
    unfold scoped_name, name_format, field_matches, no_match.
    rewrite Hname. split; vm_compute; reflexivity.
  - intros H. unfold next_commands in H. apply bind_normal in H.
    destruct H as ([] & _ & H). apply bind_normal in H.
    destruct H as ([] & Hbuild & Hstart).
    apply is_text_inv in Hbuild. apply is_text_inv in Hstart.
    unfold backward_compatible, is_defined. rewrite Hbuild, Hstart.
    reflexivity.
  - intros H. unfold react_pinned in H. apply bind_normal in H.
    destruct H as ([] & Hr & Hdom).
    apply is_text_inv in Hr. apply is_text_inv in Hdom.
    apply member_two in Hr. destruct Hr as (deps & Hdeps & Hr).
    apply member_two in Hdom. destruct Hdom as (deps' & Hdeps' & Hdom).
    rewrite Hdeps in Hdeps'. injection Hdeps' as <-.
    unfold consistent_react. rewrite Hdeps. cbn [bind]. rewrite Hr, Hdom.
    reflexivity.
Qed.

Lemma implied_cases_on_reference_manifest :
  (scoped_name reference_manifest = Normal tt
   /\ name_format reference_manifest = Normal tt)
  /\ backward_compatible reference_manifest = Normal tt
  /\ consistent_react reference_manifest = Normal tt.
Proof.
  destruct (implied_cases reference_manifest) as (Hname & Hcommands & Hreact).
  split; [|split].
  - apply Hname. vm_compute. reflexivity.
  - apply Hcommands. vm_compute. reflexivity.
  - apply Hreact. vm_compute. reflexivity.
Defined.





Lemma forEach_throws {A : Type} (l : list A) (f : A -> completion unit) :
  throws (forEach l f) = existsb (fun x => throws (f x)) l.
Proof.
  induction l as [|x l IH]; [reflexivity|].
  cbn [forEach existsb]. destruct (f x) as [u|e]; [exact IH|reflexivity].
Qed.

(** X19. The test-dependency case matches by substring: with a [dependencies]
    map, it throws exactly when some key contains [jest], [mocha] or [chai]
    anywhere in its name (so [jest-dom] or [chain] are reported too). *)
Theorem test_dependency_is_substring_match (packageJson : JsValue) (r : nat)
  (deps : list (string * JsValue)) :
  member packageJson ["dependencies"] = Normal (JObj r deps) ->
  (throws (no_test_dependencies packageJson) = true
   <-> exists key pkg,
         has_own deps key = true
         /\ In pkg ["jest"; "mocha"; "chai"]
         /\ JsString.includes key pkg = true).
Proof.
  intros Hdeps. unfold no_test_dependencies. rewrite Hdeps.
  cbn [bind or_else ToBoolean Object_keys].
  rewrite forEach_throws, existsb_exists. unfold testRelatedPackages. split.
  - intros (pkg & Hpkg & Hthrow).
    destruct (existsb (fun dep => JsString.includes dep pkg) (map fst deps))
      eqn:E; [|discriminate].
    apply existsb_exists in E. destruct E as (key & Hkey & Hinc).
    exists key, pkg. repeat split; try assumption. now apply has_own_In.
  - intros (key & pkg & Hkey & Hpkg & Hinc).
    exists pkg. split; [assumption|].
    replace (existsb (fun dep => JsString.includes dep pkg) (map fst deps))
      with true; [reflexivity|].
    symmetry. apply existsb_exists. exists key. split; [|assumption].
    now apply has_own_In.
Qed.

Lemma test_dependency_found_in_chain :
  throws (no_test_dependencies (scenario [("chain", JStr "1.0.0")] [])) = true.
Proof.
  apply (test_dependency_is_substring_match
           (scenario [("chain", JStr "1.0.0")] []) 1 [("chain", JStr "1.0.0")]).
  - reflexivity.
  - exists "chain", "chai". repeat split; try reflexivity.
    simpl. tauto.
Defined.

Lemma nullish_check_throws (v : JsValue) :
  throws (Expect.Not.toBeNull v;; Expect.Not.toBeUndefined v;;
          Expect.Not.toBe v (JStr "")) = blank v.
Proof.
  unfold Expect.Not.toBeNull, Expect.Not.toBeUndefined, Expect.Not.toBe.
  destruct v as [| |b|x|s|r e|r p]; try reflexivity.
  simpl. now destruct (String.eqb s "").
Qed.

(** X20. The nullish-dependency case, with a [dependencies] map: it throws
    exactly when some dependency has the value [null], [undefined] or the
    empty string; any other value, of any type, is accepted. *)
Theorem nullish_dependency_check (packageJson : JsValue) (r : nat)
  (deps : list (string * JsValue)) :
  member packageJson ["dependencies"] = Normal (JObj r deps) ->
  (throws (no_nullish_dependencies packageJson) = true
   <-> exists name version,
         In (name, version) deps
         /\ (version = JNull \/ version = JUndefined \/ version = JStr "")).
Proof.
  intros Hdeps. unfold no_nullish_dependencies. rewrite Hdeps.
  cbn [bind or_else ToBoolean Object_entries].
  rewrite forEach_throws, existsb_exists. split.
  - intros ([name version] & Hin & Hthrow). cbn [snd] in Hthrow.
    rewrite nullish_check_throws in Hthrow.
    exists name, version. split; [assumption|].
    destruct version; simpl in Hthrow; try discriminate; auto.
    apply String.eqb_eq in Hthrow. subst. auto.
  - intros (name & version & Hin & Hblank).
    exists (name, version). split; [assumption|]. cbn [snd].
    rewrite nullish_check_throws.
    destruct Hblank as [->|[->| ->]]; reflexivity.
Qed.

Lemma nullish_dependency_found :
  throws (no_nullish_dependencies
            (scenario [("next", JStr "^15.5.10"); ("react", JNull)] []))
  = true.
Proof.
  apply (nullish_dependency_check
           (scenario [("next", JStr "^15.5.10"); ("react", JNull)] []) 1
           [("next", JStr "^15.5.10"); ("react", JNull)]).
  - reflexivity.
  - exists "react", JNull. split; [simpl; tauto|left; reflexivity].
Defined.

Lemma parseInt_decimal (s : string) :
  is_decimal s = true -> parseInt (JStr s) = Normal (of_Z (decimal_value s)).
Proof.
  intros H. unfold parseInt. cbn [ToString bind].
  pose proof H as H0.
  unfold is_decimal in H. apply andb_true_iff in H. destruct H as [Hne Hd].
  destruct s as [|c s]; [discriminate|].
  pose proof Hd as Hd'.
  simpl in Hd. apply andb_true_iff in Hd. destruct Hd as [Hc Hs].
  cbn [String.length JsString.strip].
  rewrite (proj1 (strip1_digit c s Hc)).
  assert (Hsplit :
    (let '(negative, unsigned) :=
       match String c s with
       | String "-" r => (true, r)
       | String "+" r => (false, r)
       | _ => (false, String c s)
       end in
     let '(radix, body) :=
       match unsigned with
       | String "0" (String "x" r) | String "0" (String "X" r) => (16, r)
       | _ => (10, unsigned)
       end in
     (negative, radix, body)) = (false, 10, String c s)).
  { destruct c as [[] [] [] [] [] [] [] []]; try discriminate; try reflexivity.
    destruct s as [|c s]; [reflexivity|].
    simpl in Hs. apply andb_true_iff in Hs. destruct Hs as [Hc' _].
    destruct c as [[] [] [] [] [] [] [] []]; try discriminate; reflexivity. }
  destruct (match String c s with
            | String "-" r => (true, r)
            | String "+" r => (false, r)
            | _ => (false, String c s)
            end) as [negative unsigned].
  destruct (match unsigned with
            | String "0" (String "x" r) | String "0" (String "X" r) => (16, r)
            | _ => (10, unsigned)
            end) as [radix body].
  injection Hsplit as -> -> ->.
  rewrite (span_digits_decimal (String c s) 0 0 Hd').
  cbn [String.length Nat.add]. reflexivity.
Qed.

(** X14. The major-version case on a [next] version whose first segment is
    written in decimal digits (below 2^53), with or without a range
    prefix, alone or followed by a dot and anything: it throws exactly when
    that segment is not 15. *)
Theorem next_major_check (packageJson : JsValue) (prefix a rest : string) :
  member packageJson ["dependencies"; "next"]
  = Normal (JStr (prefix ++ a ++ rest)) ->
  is_range_prefix prefix = true ->
  is_decimal a = true ->
  safe_integer (decimal_value a) ->
  rest = "" \/ (exists more, rest = String "." more) ->
  throws (on_next_15 packageJson) = negb (decimal_value a =? 15).
Proof.
  intros Hnext Hp Ha Sa Hrest.
  unfold on_next_15. rewrite Hnext. cbn [bind call_replace].
  destruct (decimal_first_digit a Ha) as (d & tl & Hshape & Hd & Hda).
  assert (Hclean : RegExp.replace (prefix ++ a ++ rest) range_prefix "" = a ++ rest).
  { rewrite Hshape.
    change (prefix ++ String d tl ++ rest) with (prefix ++ String d (tl ++ rest)).
    now rewrite (replace_range_prefix prefix _ d Hp Hd). }
  rewrite Hclean.
  assert (Hfirst : exists others, JsString.split (a ++ rest) "." = a :: others).
  { unfold JsString.split. apply split_head_segment; [|assumption].
    now apply digits_no_dot. }
  destruct Hfirst as [others ->].
  cbn [map element nth]. rewrite (parseInt_decimal a Ha). cbn [bind].
  unfold Expect.toBe, num. cbn [strict_equals].
  rewrite of_Z_eqb by (assumption || apply safe_15).
  now destruct (decimal_value a =? 15).
Qed.

Lemma next_major_check_on_16 :
  throws (on_next_15 (scenario [("next", JStr "^16.0.1")] [])) = true.
Proof.
  apply (next_major_check (scenario [("next", JStr "^16.0.1")] [])
           "^" "16" ".0.1").
  - reflexivity.
  - reflexivity.
  - reflexivity.
  - vm_compute. split; (discriminate || reflexivity).
  - right. exists "0.1". reflexivity.
Defined.

Lemma forEach_normal {A : Type} (l : list A) (f : A -> completion unit) :
  forEach l f = Normal tt -> forall x, In x l -> f x = Normal tt.
Proof.
  intros H x Hin. apply unit_normal.
  assert (Hthrows : throws (forEach l f) = false) by now rewrite H.
  rewrite forEach_throws in Hthrows.
  destruct (throws (f x)) eqn:E; [|reflexivity].
  assert (existsb (fun y => throws (f y)) l = true)
    by (apply existsb_exists; eauto).
  congruence.
Qed.

Lemma uint_text_starts_with_digit (u : Decimal.uint) :
  match NilEmpty.string_of_uint u with
  | EmptyString => True
  | String c _ => is_digit c = true
  end.
Proof. destruct u; simpl; auto. Qed.

Lemma index_key_starts_with_digit (i : nat) :
  match digits_of_nat i with
  | EmptyString => True
  | String c _ => is_digit c = true
  end.
Proof.
  unfold digits_of_nat, digits_of_Z.
  destruct (Z.of_nat i) as [|p|p] eqn:E; [reflexivity| |lia].
  apply uint_text_starts_with_digit.
Qed.

(** A key that does not start with a digit is no index of an array. *)
Lemma not_an_index (c : ascii) (rest : string) (n : nat) :
  is_digit c = false -> mem (String c rest) (index_keys n) = false.
Proof.
  intros Hc. unfold mem, index_keys.
  destruct (existsb _ _) eqn:E; [|reflexivity].
  apply existsb_exists in E. destruct E as (k & Hin & Heq).
  apply in_map_iff in Hin. destruct Hin as (i & <- & _).
  apply String.eqb_eq in Heq.
  pose proof (index_key_starts_with_digit i) as Hd.
  rewrite <- Heq in Hd. congruence.
Qed.

(** What [toHaveProperty] tells of a key that no prototype supplies and
    that is no index: the value is a plain object that owns the key. *)
Lemma toHaveProperty_own (v : JsValue) (c : ascii) (rest : string) :
  is_digit c = false ->
  mem (String c rest) Object_prototype_keys = false ->
  mem (String c rest) Array_prototype_keys = false ->
  Expect.toHaveProperty v (String c rest) = Normal tt ->
  exists r props, v = JObj r props /\ has_own props (String c rest) = true.
Proof.
  intros Hc Hobj Harr H. unfold Expect.toHaveProperty in H.
  destruct (ToBoolean v) eqn:Htruthy; [|discriminate]. cbn [negb] in H.
  destruct v as [| |b|x|s|r elems|r props]; try discriminate;
    try (destruct b; discriminate).
  - cbn [has_property bind] in H.
    rewrite (not_an_index c rest _ Hc), Hobj, Harr in H. discriminate.
  - cbn [has_property bind] in H. rewrite Hobj, orb_false_r in H.
    exists r, props. split; [reflexivity|].
    destruct (has_own props (String c rest)); [reflexivity|discriminate].
Qed.

Lemma member_one (v : JsValue) (k : string) :
  member v [k] = get v k.
Proof. cbn [member]. now destruct (get v k). Qed.

Lemma has_properties_inv (packageJson : JsValue) (path keys : list string) :
  has_properties packageJson path keys = Normal tt ->
  forall k, In k keys ->
    exists o, member packageJson path = Normal o
              /\ Expect.toHaveProperty o k = Normal tt.
Proof.
  intros H k Hin. unfold has_properties in H.
  apply (forEach_normal _ _ H) in Hin. now apply bind_normal in Hin.
Qed.

Lemma toHaveProperty_plain (v : JsValue) (k : string) :
  plain_key k = true ->
  Expect.toHaveProperty v k = Normal tt ->
  exists r props, v = JObj r props /\ has_own props k = true.
Proof.
  destruct k as [|c rest]; [discriminate|]. cbn [plain_key]. intros H.
  apply andb_true_iff in H. destruct H as [H Harr].
  apply andb_true_iff in H. destruct H as [Hc Hobj].
  apply negb_true_iff in Hc, Hobj, Harr.
  now apply toHaveProperty_own.
Qed.

Lemma has_properties_own (packageJson : JsValue) (path keys : list string)
  (r : nat) (props : list (string * JsValue)) :
  member packageJson path = Normal (JObj r props) ->
  forallb plain_key keys = true ->
  has_properties packageJson path keys = Normal tt ->
  forall k, In k keys -> has_own props k = true.
Proof.
  intros Hm Hplain H k Hin.
  destruct (has_properties_inv _ _ _ H k Hin) as (o & Ho & Hk).
  rewrite Hm in Ho. injection Ho as <-.
  rewrite forallb_forall in Hplain.
  destruct (toHaveProperty_plain _ k (Hplain k Hin) Hk) as (r' & props' & E & Hown).
  injection E as -> ->. exact Hown.
Qed.

(** X17. What a green run certifies of the dependencies.  If the script exits
    with code 0, [dependencies] and [devDependencies] are plain objects;
    the first owns [next], [react] and [react-dom], the second the
    eighteen keys the cases name; no key is in both; no dependency has
    the value [null], [undefined] or the empty string; and no dependency
    name contains [jest], [mocha] or [chai]. *)
Theorem green_run_certifies_dependencies
  (JSON_parse : string -> completion JsValue) (content : string)
  (packageJson : JsValue) :
  snd (main (statements JSON_parse content packageJson)) = 0 ->
  exists r deps r' dev,
    member packageJson ["dependencies"] = Normal (JObj r deps)
    /\ member packageJson ["devDependencies"] = Normal (JObj r' dev)
    /\ (forall k, In k ["next"; "react"; "react-dom"] -> has_own deps k = true)
    /\ (forall k, In k dev_keys -> has_own dev k = true)
    /\ (forall k, has_own deps k = true -> has_own dev k = false)
    /\ (forall k v, In (k, v) deps -> blank v = false)
    /\ (forall k pkg, has_own deps k = true -> In pkg testRelatedPackages ->
                      JsString.includes k pkg = false).
Proof.
  intros Hexit.
  pose proof (exit_0_all_pass _ Hexit) as Hpass.
  assert (Hprod := Hpass "should have required production dependencies" _
                     ltac:(simpl; tauto)).
  assert (Hdev1 := Hpass
                     "should include essential Next.js and React dev dependencies"
                     _ ltac:(simpl; tauto)).
  assert (Hdev2 := Hpass "should include Jest test dependencies" _
                     ltac:(simpl; tauto)).
  assert (Hdev3 := Hpass "should include Tailwind CSS and plugins" _
                     ltac:(simpl; tauto)).
  assert (Hdev4 := Hpass "should include ESLint and Prettier" _
                     ltac:(simpl; tauto)).
  assert (Hdev5 := Hpass "should preserve Tailwind plugins" _
                     ltac:(simpl; tauto)).
  assert (Hdev6 := Hpass "should maintain HeadlessUI and Heroicons" _
                     ltac:(simpl; tauto)).
  assert (Hdup := Hpass "should not have duplicate dependencies" _
                    ltac:(simpl; tauto)).
  assert (Hnull := Hpass "should not have nullish dependencies" _
                     ltac:(simpl; tauto)).
  assert (Htest := Hpass "should not include test deps in production" _
                     ltac:(simpl; tauto)).
  cbv beta in *. clear Hpass Hexit.
  unfold production_dependencies in Hprod. unfold dev_dependencies in *.
  destruct (has_properties_inv _ _ _ Hprod "next" ltac:(simpl; tauto))
    as (o & Hdeps & Hnext).
  destruct (toHaveProperty_plain o "next" eq_refl Hnext)
    as (r & deps & -> & _).
  destruct (has_properties_inv _ _ _ Hdev2 "jest" ltac:(simpl; tauto))
    as (o & Hdevs & Hjest).
  destruct (toHaveProperty_plain o "jest" eq_refl Hjest)
    as (r' & dev & -> & _).
  exists r, deps, r', dev.
  split; [exact Hdeps|]. split; [exact Hdevs|].
  split.
  { intros k Hk.
    eapply has_properties_own; [exact Hdeps| |exact Hprod|exact Hk].
    reflexivity. }
  split.
  { intros k Hk. unfold dev_keys in Hk.
    assert (Hcase :
      In k ["@types/react"; "@types/react-dom"; "@types/node"; "typescript"]
      \/ In k ["jest"; "ts-jest"; "@jest/globals"; "@types/jest"]
      \/ In k ["tailwindcss"; "postcss"; "autoprefixer"]
      \/ In k ["eslint"; "prettier"]
      \/ In k ["@tailwindcss/aspect-ratio"; "@tailwindcss/forms";
               "@tailwindcss/typography"]
      \/ In k ["@headlessui/react"; "@heroicons/react"])
      by (simpl in Hk |- *; tauto).
    destruct Hcase as [H|[H|[H|[H|[H|H]]]]];
      [eapply has_properties_own; [exact Hdevs| |exact Hdev1|exact H]
      |eapply has_properties_own; [exact Hdevs| |exact Hdev2|exact H]
      |eapply has_properties_own; [exact Hdevs| |exact Hdev3|exact H]
      |eapply has_properties_own; [exact Hdevs| |exact Hdev4|exact H]
      |eapply has_properties_own; [exact Hdevs| |exact Hdev5|exact H]
      |eapply has_properties_own; [exact Hdevs| |exact Hdev6|exact H]];
      reflexivity. }
  rewrite member_one in Hdeps, Hdevs.
  split.
  { unfold no_duplicate_dependencies in Hdup.
    rewrite Hdeps in Hdup. cbn [bind or_else ToBoolean Object_keys] in Hdup.
    rewrite Hdevs in Hdup. cbn [bind or_else ToBoolean Object_keys] in Hdup.
    rewrite toEqual_empty_array in Hdup.
    intros k Hk.
    destruct (has_own dev k) eqn:Hdk; [exfalso|reflexivity].
    assert (Hin : In k (filter (fun dep => mem dep (map fst dev)) (map fst deps))).
    { apply filter_In. split; [now apply has_own_In|now rewrite mem_keys]. }
    destruct (filter _ (map fst deps)); [destruct Hin|discriminate]. }
  split.
  { unfold no_nullish_dependencies in Hnull. rewrite member_one, Hdeps in Hnull.
    cbn [bind or_else ToBoolean Object_entries] in Hnull.
    intros k v Hin.
    pose proof (forEach_normal _ _ Hnull (k, v) Hin) as Hv. cbn [snd] in Hv.
    rewrite <- nullish_check_throws, Hv. reflexivity. }
  { unfold no_test_dependencies in Htest. rewrite member_one, Hdeps in Htest.
    cbn [bind or_else ToBoolean Object_keys] in Htest.
    intros k pkg Hk Hpkg.
    pose proof (forEach_normal _ _ Htest pkg Hpkg) as Hp. cbv beta in Hp.
    destruct (existsb (fun dep => JsString.includes dep pkg) (map fst deps))
      eqn:E; [discriminate|].
    destruct (JsString.includes k pkg) eqn:Hinc; [exfalso|reflexivity].
    assert (existsb (fun dep => JsString.includes dep pkg) (map fst deps) = true).
    { apply existsb_exists. exists k. split; [now apply has_own_In|exact Hinc]. }
    congruence. }
Qed.

Lemma green_run_dependencies_of_reference_manifest :
  exists r deps r' dev,
    member reference_manifest ["dependencies"] = Normal (JObj r deps)
    /\ member reference_manifest ["devDependencies"] = Normal (JObj r' dev)
    /\ (forall k, In k ["next"; "react"; "react-dom"] -> has_own deps k = true)
    /\ (forall k, In k dev_keys -> has_own dev k = true)
    /\ (forall k, has_own deps k = true -> has_own dev k = false)
    /\ (forall k v, In (k, v) deps -> blank v = false)
    /\ (forall k pkg, has_own deps k = true -> In pkg testRelatedPackages ->
                      JsString.includes k pkg = false).
Proof.
  apply (green_run_certifies_dependencies (fun _ => Normal reference_manifest)
           "{}" reference_manifest).
  vm_compute. reflexivity.
Defined.

End ScriptLaws.
